(** * OAuth reference provider and authorization router of the MCP TypeScript SDK

    A shallow embedding of

    - [src/examples/server/inMemoryOAuthProvider.ts]: the in-memory clients
      store and the in-memory OAuth server provider (authorization codes,
      access tokens);
    - the authorization router ([checkIssuerUrl], [mcpAuthRouter],
      [mcpProtectedResourceRouter], [getOAuthProtectedResourceMetadataUrl]).

    JavaScript values are embedded as follows.  Strings are byte strings
    ([string]); [Date.now()] is an integer number of milliseconds ([Z]; every
    value involved stays far below 2^53, so the arithmetic of the source is
    exact); a [Map] that is only read with [get] and written with [set] and
    [delete] is a [gmap]; an optional property is an [option]; a call that may
    throw returns a [Completion].  The two sources of non-determinism of the
    provider, [randomUUID()] and [Date.now()], are arguments of the operation
    that calls them. *)

From Stdlib Require Import ZArith String Ascii List DecimalString Lia.
From stdpp Require Import base option list gmap strings.

(** ** JavaScript: exceptions, completions, arrays of strings *)

Module JS.

(** The exceptions the modelled code throws: [new Error(message)] written in
    the source, and the [TypeError] of the platform ([new URL] on a string
    that is not a URL). *)
Inductive Exception : Type :=
| Error (message : string)
| TypeError (message : string).

(** The outcome of a call: a returned value or a thrown exception. *)
Inductive Completion (A : Type) : Type :=
| Return (a : A)
| Throw (e : Exception).

Arguments Return {A} a.
Arguments Throw {A} e.

Definition bind {A B : Type} (c : Completion A) (k : A -> Completion B)
  : Completion B :=
  match c with
  | Return a => k a
  | Throw e => Throw e
  end.

Definition returns {A : Type} (c : Completion A) : bool :=
  match c with
  | Return _ => true
  | Throw _ => false
  end.

(** [xs.join(sep)] on an array of strings. *)
Fixpoint join (sep : string) (xs : list string) : string :=
  match xs with
  | [] => ""
  | x :: rest =>
      match rest with
      | [] => x
      | _ :: _ => x +:+ sep +:+ join sep rest
      end
  end.

(** [String(v)] of a possibly undefined string, as [new URL(v)] applies it to
    its argument. *)
Definition to_string (v : option string) : string :=
  match v with
  | Some s => s
  | None => "undefined"
  end.

End JS.

Export JS (Exception (..), Completion (..)).

#[export] Instance completion_ret : MRet Completion := @Return.
#[export] Instance completion_bind : MBind Completion :=
  fun A B k c => JS.bind c k.

(** ** Percent-encoding (WHATWG URL standard) *)

Module Percent.

Definition code (c : ascii) : N := N_of_ascii c.

Definition hex_digit (n : N) : ascii :=
  if (n <? 10)%N then ascii_of_N (48 + n) else ascii_of_N (55 + n).

(** [%XX] with upper-case hexadecimal digits. *)
Definition encode_byte (c : ascii) (rest : string) : string :=
  String "%" (String (hex_digit (code c / 16)) (String (hex_digit (code c mod 16)) rest)).

Definition is_alphanumeric (c : ascii) : bool :=
  let n := code c in
  ((48 <=? n) && (n <=? 57) || (65 <=? n) && (n <=? 90) || (97 <=? n) && (n <=? 122))%N.

(** The bytes the application/x-www-form-urlencoded serializer leaves
    unchanged: ASCII alphanumerics and [* - . _]. *)
Definition urlencoded_safe (c : ascii) : bool :=
  is_alphanumeric c
  || (code c =? 42)%N || (code c =? 45)%N || (code c =? 46)%N || (code c =? 95)%N.

(** application/x-www-form-urlencoded byte serializer: a space becomes [+]. *)
Fixpoint urlencode (s : string) : string :=
  match s with
  | EmptyString => EmptyString
  | String c rest =>
      if urlencoded_safe c then String c (urlencode rest)
      else if (code c =? 32)%N then String "+" (urlencode rest)
      else encode_byte c (urlencode rest)
  end.

(** The query percent-encode set: C0 controls, bytes above [~], space, the
    double quote, [#], [<], [>]; the special-query set adds the apostrophe. *)
Definition in_query_set (special : bool) (c : ascii) : bool :=
  let n := code c in
  ((n <=? 32) || (126 <? n) || (n =? 34) || (n =? 35) || (n =? 60) || (n =? 62)
   || special && (n =? 39))%N.

Fixpoint encode_query (special : bool) (s : string) : string :=
  match s with
  | EmptyString => EmptyString
  | String c rest =>
      if in_query_set special c then encode_byte c (encode_query special rest)
      else String c (encode_query special rest)
  end.

(** The URL parser first removes every ASCII tab and newline of its input. *)
Definition is_tab_or_newline (c : ascii) : bool :=
  ((code c =? 9) || (code c =? 10) || (code c =? 13))%N.

Fixpoint remove_tab_newline (s : string) : string :=
  match s with
  | EmptyString => EmptyString
  | String c rest =>
      if is_tab_or_newline c then remove_tab_newline rest
      else String c (remove_tab_newline rest)
  end.

(** A byte the [search] setter stores as it is. *)
Definition kept (special : bool) (c : ascii) : bool :=
  negb (in_query_set special c) && negb (is_tab_or_newline c).

Fixpoint all_kept (special : bool) (s : string) : bool :=
  match s with
  | EmptyString => true
  | String c rest => kept special c && all_kept special rest
  end.

(** The bytes of a version 4 UUID in its text form: digits, letters and
    hyphens. *)
Fixpoint uuid_bytes (s : string) : bool :=
  match s with
  | EmptyString => true
  | String c rest => (is_alphanumeric c || (code c =? 45)%N) && uuid_bytes rest
  end.

End Percent.

(** ** [URLSearchParams] *)

Module URLSearchParams.

(** The list of name-value pairs, in insertion order. *)
Definition t : Type := list (string * string).

(** [new URLSearchParams({ k: v, ... })]. *)
Definition init (pairs : list (string * string)) : t := pairs.

Definition serialize_pair (p : string * string) : string :=
  Percent.urlencode (fst p) +:+ "=" +:+ Percent.urlencode (snd p).

(** [params.toString()]. *)
Definition toString (params : t) : string :=
  JS.join "&" (map serialize_pair params).

End URLSearchParams.

(** ** [URL] objects *)

Module URL.

(** A URL's path is an opaque string ([mailto:x]) or a list of segments. *)
Inductive Path : Type :=
| Opaque (p : string)
| Segments (segs : list string).

(** A URL record of the URL standard; an absent component is [None]. *)
Record t : Type := mk {
  scheme : string;
  username : string;
  password : string;
  host : option string;
  port : option N;
  path : Path;
  query : option string;
  fragment : option string
}.

Definition special_schemes : list string :=
  ["ftp"; "file"; "http"; "https"; "ws"; "wss"].

Definition is_special (u : t) : bool :=
  existsb (String.eqb (scheme u)) special_schemes.

(** *** Getters *)

Definition protocol (u : t) : string := scheme u +:+ ":".

Definition hostname (u : t) : string := default "" (host u).

Fixpoint serialize_segments (segs : list string) : string :=
  match segs with
  | [] => ""
  | seg :: rest => "/" +:+ seg +:+ serialize_segments rest
  end.

Definition pathname (u : t) : string :=
  match path u with
  | Opaque p => p
  | Segments segs => serialize_segments segs
  end.

(** [url.search]: empty when the query is absent or empty. *)
Definition search (u : t) : string :=
  match query u with
  | None => ""
  | Some q => if String.eqb q "" then "" else "?" +:+ q
  end.

(** [url.hash]: empty when the fragment is absent or empty. *)
Definition hash (u : t) : string :=
  match fragment u with
  | None => ""
  | Some f => if String.eqb f "" then "" else "#" +:+ f
  end.

Definition serialize_authority (u : t) : string :=
  match host u with
  | None => ""
  | Some h =>
      "//"
      +:+ (if String.eqb (username u) "" && String.eqb (password u) "" then ""
           else username u
                +:+ (if String.eqb (password u) "" then "" else ":" +:+ password u)
                +:+ "@")
      +:+ h
      +:+ match port u with
          | None => ""
          | Some p => ":" +:+ NilZero.string_of_uint (N.to_uint p)
          end
  end.

(** A path that begins with an empty segment would read as an authority when
    there is no host: the serializer puts [/.] in front of it. *)
Definition path_needs_dot (u : t) : bool :=
  match host u, path u with
  | None, Segments ("" :: _ :: _) => true
  | _, _ => false
  end.

(** [url.href] and [url.toString()]: the URL serializer. *)
Definition href (u : t) : string :=
  scheme u +:+ ":"
  +:+ serialize_authority u
  +:+ (if path_needs_dot u then "/." else "")
  +:+ pathname u
  +:+ match query u with None => "" | Some q => "?" +:+ q end
  +:+ match fragment u with None => "" | Some f => "#" +:+ f end.

(** *** The [search] setter *)

Definition strip_question_mark (s : string) : string :=
  match s with
  | String "?" rest => rest
  | _ => s
  end.

Definition with_query (q : option string) (u : t) : t :=
  mk (scheme u) (username u) (password u) (host u) (port u) (path u) q (fragment u).

(** [url.search = value].  An empty value removes the query; otherwise one
    leading [?] is dropped and the rest goes through the parser's query
    state, which percent-encodes the bytes of the query set. *)
Definition set_search (value : string) (u : t) : t :=
  if String.eqb value "" then with_query None u
  else
    with_query
      (Some (Percent.encode_query (is_special u)
               (Percent.remove_tab_newline (strip_question_mark value)))) u.

End URL.

(** ** Methods of a stateful object *)

(** A method of an object whose fields are [S]: it returns or throws, and
    leaves the object in a new state either way (a [throw] does not undo the
    writes made before it). *)
Definition Method (S A : Type) : Type := S -> Completion A * S.

#[export] Instance method_ret {S : Type} : MRet (Method S) :=
  fun A a this => (Return a, this).
#[export] Instance method_bind {S : Type} : MBind (Method S) :=
  fun A B k m this =>
    match m this with
    | (Return a, this') => k a this'
    | (Throw e, this') => (Throw e, this')
    end.

Definition get_this {S : Type} : Method S S := fun this => (Return this, this).
Definition modify_this {S : Type} (f : S -> S) : Method S unit :=
  fun this => (Return tt, f this).
Definition throw {S A : Type} (e : Exception) : Method S A :=
  fun this => (Throw e, this).
Definition lift {S A : Type} (c : Completion A) : Method S A :=
  fun this => (c, this).

(** ** [src/examples/server/inMemoryOAuthProvider.ts] *)

(** Modelled from the spec: [OAuthClientInformationFull] is declared in
    [src/shared/auth.js], which is absent; a client has a [client_id], the
    ordered sequence of its [redirect_uris] and an optional [client_secret]. *)
Module OAuthClientInformationFull.
Record t : Type := mk {
  client_id : string;
  client_secret : option string;
  redirect_uris : list string
}.
End OAuthClientInformationFull.

(** Modelled from the spec: [AuthorizationParams] is declared in
    [src/server/auth/provider.js], which is absent; the parameters carry the
    redirect URI, the PKCE code challenge, the requested scopes and the
    state.  The source reads [codeChallenge] and [scopes]. *)
Module AuthorizationParams.
Record t : Type := mk {
  state : option string;
  scopes : option (list string);
  codeChallenge : string;
  redirectUri : string
}.
End AuthorizationParams.

(** Modelled from the spec: [AuthInfo] is declared in
    [src/server/auth/types.js], which is absent; a token record has the
    token, the owning client, the scopes, an expiry that may be absent, and a
    kind.  The kind is the [type] property the provider writes (['access']) and
    tests (['refresh']); the object [verifyAccessToken] returns has none.  An
    [expiresAt] of [None] in a returned object stands for the [NaN] that
    [Math.floor(undefined / 1000)] is. *)
Module AuthInfo.
Record t : Type := mk {
  token : string;
  clientId : string;
  scopes : list string;
  expiresAt : option Z;
  type : option string
}.
End AuthInfo.

(** Modelled from the spec: [OAuthTokens] is declared in
    [src/shared/auth.js], which is absent; the fields are those of the object
    [exchangeAuthorizationCode] returns. *)
Module OAuthTokens.
Record t : Type := mk {
  access_token : string;
  token_type : string;
  expires_in : Z;
  scope : string
}.
End OAuthTokens.

(** What a method did to the Express [Response] it was given. *)
Module Response.
Inductive t : Type :=
| redirect (url : string).
End Response.

Module InMemoryClientsStore.

Record t : Type := mk {
  clients : gmap string OAuthClientInformationFull.t
}.

Definition new : t := mk ∅.

Definition getClient (clientId : string)
  : Method t (option OAuthClientInformationFull.t) :=
  this ← get_this;
  mret (clients this !! clientId).

Definition registerClient (clientMetadata : OAuthClientInformationFull.t)
  : Method t OAuthClientInformationFull.t :=
  modify_this (fun this =>
    mk (<[OAuthClientInformationFull.client_id clientMetadata := clientMetadata]>
          (clients this)));;
  mret clientMetadata.

End InMemoryClientsStore.

(** A value of the provider's [codes] map. *)
Module CodeData.
Record t : Type := mk {
  params : AuthorizationParams.t;
  client : OAuthClientInformationFull.t
}.
End CodeData.

Module InMemoryAuthProvider.

(** The fields of the provider. *)
Record t : Type := mk {
  clientsStore : InMemoryClientsStore.t;
  codes : gmap string CodeData.t;
  tokens : gmap string AuthInfo.t
}.

(** A freshly constructed provider. *)
Definition new : t := mk InMemoryClientsStore.new ∅ ∅.

Definition set_codes (f : gmap string CodeData.t -> gmap string CodeData.t) (this : t) : t :=
  mk (clientsStore this) (f (codes this)) (tokens this).

Definition set_tokens (f : gmap string AuthInfo.t -> gmap string AuthInfo.t) (this : t) : t :=
  mk (clientsStore this) (codes this) (f (tokens this)).

Definition set_clientsStore (f : InMemoryClientsStore.t -> InMemoryClientsStore.t) (this : t) : t :=
  mk (f (clientsStore this)) (codes this) (tokens this).

(** The one-hour lifetime of an access token, in milliseconds and in
    seconds. *)
Definition token_lifetime_ms : Z := 3600000.
Definition token_lifetime_s : Z := 3600.

Section Platform.

(** [new URL(input, base)] of the platform: the URL parser, which throws a
    [TypeError] on a string that is not a URL. *)
Variable new_URL : string -> option URL.t -> Completion URL.t.

(** [authorize(client, params, res)]; [randomUUID] is the value the call to
    [randomUUID()] returns. *)
Definition authorize (randomUUID : string)
    (client : OAuthClientInformationFull.t) (params : AuthorizationParams.t)
  : Method t Response.t :=
  let code := randomUUID in
  let searchParams := URLSearchParams.init [("code", code)] in
  modify_this (set_codes <[code := CodeData.mk params client]>);;
  targetUrl ← lift (new_URL
    (JS.to_string (OAuthClientInformationFull.redirect_uris client !! 0%nat)) None);
  let targetUrl := URL.set_search (URLSearchParams.toString searchParams) targetUrl in
  mret (Response.redirect (URL.href targetUrl)).

Definition challengeForAuthorizationCode
    (client : OAuthClientInformationFull.t) (authorizationCode : string)
  : Method t string :=
  this ← get_this;
  match codes this !! authorizationCode with
  | None => throw (Error "Invalid authorization code")
  | Some codeData => mret (AuthorizationParams.codeChallenge (CodeData.params codeData))
  end.

Definition not_issued_to (issued presenting : string) : string :=
  "Authorization code was not issued to this client, "
  +:+ issued +:+ " != " +:+ presenting.

(** [exchangeAuthorizationCode(client, authorizationCode, _codeVerifier)];
    [randomUUID] and [now] are the values the calls to [randomUUID()] and
    [Date.now()] return. *)
Definition exchangeAuthorizationCode (randomUUID : string) (now : Z)
    (client : OAuthClientInformationFull.t) (authorizationCode : string)
    (_codeVerifier : option string)
  : Method t OAuthTokens.t :=
  this ← get_this;
  match codes this !! authorizationCode with
  | None => throw (Error "Invalid authorization code")
  | Some codeData =>
      let issued := OAuthClientInformationFull.client_id (CodeData.client codeData) in
      let presenting := OAuthClientInformationFull.client_id client in
      if negb (String.eqb issued presenting)
      then throw (Error (not_issued_to issued presenting))
      else
        modify_this (set_codes (delete authorizationCode));;
        let token := randomUUID in
        let tokenData :=
          AuthInfo.mk token presenting
            (default [] (AuthorizationParams.scopes (CodeData.params codeData)))
            (Some (now + token_lifetime_ms)%Z)
            (Some "access") in
        modify_this (set_tokens <[token := tokenData]>);;
        mret (OAuthTokens.mk token "Bearer" token_lifetime_s
                (JS.join " " (default [] (AuthorizationParams.scopes (CodeData.params codeData)))))
  end.

Definition exchangeRefreshToken
    (_client : OAuthClientInformationFull.t) (_refreshToken : string)
    (_scopes : option (list string))
  : Method t OAuthTokens.t :=
  throw (Error "Not implemented for example demo").

(** [tokenData.expiresAt < Date.now()]; a comparison with [undefined] is
    false. *)
Definition expired (now : Z) (tokenData : AuthInfo.t) : bool :=
  match AuthInfo.expiresAt tokenData with
  | Some expiresAt => (expiresAt <? now)%Z
  | None => false
  end.

(** [tokenData.type === 'refresh']. *)
Definition is_refresh (tokenData : AuthInfo.t) : bool :=
  match AuthInfo.type tokenData with
  | Some kind => String.eqb kind "refresh"
  | None => false
  end.

(** [verifyAccessToken(token)]; [now] is the value of [Date.now()]. *)
Definition verifyAccessToken (now : Z) (token : string) : Method t AuthInfo.t :=
  this ← get_this;
  match tokens this !! token with
  | None => throw (Error "Invalid or expired token")
  | Some tokenData =>
      if expired now tokenData || is_refresh tokenData
      then throw (Error "Invalid or expired token")
      else
        mret (AuthInfo.mk token (AuthInfo.clientId tokenData)
                (AuthInfo.scopes tokenData)
                ((fun expiresAt => expiresAt / 1000)%Z <$> AuthInfo.expiresAt tokenData)
                None)
  end.

(** What [exchangeAuthorizationCode] stores: a record of kind ['access']
    with an expiry. *)
Definition access_token_record (tokenData : AuthInfo.t) : Prop :=
  AuthInfo.type tokenData = Some "access"
  /\ exists expiresAt, AuthInfo.expiresAt tokenData = Some expiresAt.

(** A method of the [clientsStore] field, called through the provider. *)
Definition on_clientsStore {A : Type} (m : Method InMemoryClientsStore.t A)
  : Method t A :=
  fun this =>
    let (result, store) := m (clientsStore this) in
    (result, set_clientsStore (fun _ => store) this).

(** *** Histories of calls

    The maps are private: the state of a provider changes only through a
    call of one of its methods, or of a method of its clients store. *)
Inductive Call : Type :=
| Authorize (randomUUID : string)
    (client : OAuthClientInformationFull.t) (params : AuthorizationParams.t)
| ChallengeForAuthorizationCode
    (client : OAuthClientInformationFull.t) (authorizationCode : string)
| ExchangeAuthorizationCode (randomUUID : string) (now : Z)
    (client : OAuthClientInformationFull.t) (authorizationCode : string)
    (codeVerifier : option string)
| ExchangeRefreshToken
    (client : OAuthClientInformationFull.t) (refreshToken : string)
    (scopes : option (list string))
| VerifyAccessToken (now : Z) (token : string)
| GetClient (clientId : string)
| RegisterClient (clientMetadata : OAuthClientInformationFull.t).

(** The provider after a call, whether the call returned or threw. *)
Definition after (call : Call) (this : t) : t :=
  match call with
  | Authorize randomUUID client params =>
      snd (authorize randomUUID client params this)
  | ChallengeForAuthorizationCode client authorizationCode =>
      snd (challengeForAuthorizationCode client authorizationCode this)
  | ExchangeAuthorizationCode randomUUID now client authorizationCode codeVerifier =>
      snd (exchangeAuthorizationCode randomUUID now client authorizationCode
             codeVerifier this)
  | ExchangeRefreshToken client refreshToken scopes =>
      snd (exchangeRefreshToken client refreshToken scopes this)
  | VerifyAccessToken now token =>
      snd (verifyAccessToken now token this)
  | GetClient clientId =>
      snd (on_clientsStore (InMemoryClientsStore.getClient clientId) this)
  | RegisterClient clientMetadata =>
      snd (on_clientsStore (InMemoryClientsStore.registerClient clientMetadata) this)
  end.

Definition run (calls : list Call) (this : t) : t :=
  fold_left (fun this call => after call this) calls this.

(** The states a provider can be in. *)
Inductive reachable : t -> Prop :=
| reachable_new : reachable new
| reachable_after call this : reachable this -> reachable (after call this).

(** [randomUUID()] returned [code] to an [authorize] call. *)
Definition issues (code : string) (call : Call) : bool :=
  match call with
  | Authorize randomUUID _ _ => String.eqb randomUUID code
  | _ => false
  end.

(** The call presents [code] for exchange. *)
Definition redeems (code : string) (call : Call) : bool :=
  match call with
  | ExchangeAuthorizationCode _ _ _ authorizationCode _ =>
      String.eqb authorizationCode code
  | _ => false
  end.

End Platform.

End InMemoryAuthProvider.

(** ** The authorization router *)

(** Modelled from the spec: [OAuthServerProvider] and
    [OAuthRegisteredClientsStore] are declared in [./provider.js] and
    [./clients.js], which are absent; the router only tests whether the
    optional methods [registerClient] and [revokeToken] are defined, and a
    field below is [true] when the method is. *)
Module OAuthRegisteredClientsStore.
Record t : Type := mk {
  registerClient : bool
}.
End OAuthRegisteredClientsStore.

Module OAuthServerProvider.
Record t : Type := mk {
  clientsStore : OAuthRegisteredClientsStore.t;
  revokeToken : bool
}.

(** The provider of [inMemoryOAuthProvider.ts] as the router sees it: its
    clients store defines [registerClient], and the class defines no
    [revokeToken]. *)
Definition inMemory : t := mk (OAuthRegisteredClientsStore.mk true) false.
End OAuthServerProvider.

(** Modelled from the spec: [OAuthMetadata] is declared in
    [../../shared/auth.js], which is absent; the fields are those of the
    object literal in [mcpAuthRouter], [None] for [undefined]. *)
Module OAuthMetadata.
Record t : Type := mk {
  issuer : string;
  service_documentation : option string;
  authorization_endpoint : string;
  response_types_supported : list string;
  code_challenge_methods_supported : list string;
  token_endpoint : string;
  token_endpoint_auth_methods_supported : list string;
  grant_types_supported : list string;
  scopes_supported : option (list string);
  revocation_endpoint : option string;
  revocation_endpoint_auth_methods_supported : option (list string);
  registration_endpoint : option string
}.
End OAuthMetadata.

(** Modelled from the spec: [OAuthProtectedResourceMetadata] is declared in
    [../../shared/auth.js], which is absent; the fields are those of the
    object literal in [mcpProtectedResourceRouter]. *)
Module OAuthProtectedResourceMetadata.
Record t : Type := mk {
  resource : string;
  authorization_servers : list string;
  scopes_supported : option (list string);
  resource_name : option string;
  resource_documentation : option string
}.
End OAuthProtectedResourceMetadata.

(** JSON documents, as far as the metadata needs them. *)
Module JSON.

Inductive value : Type :=
| Null
| String (s : string)
| Strings (xs : list string).

(** An object: its properties in order. *)
Definition object : Type := list (string * value).

(** One property of an object being serialized: [JSON.stringify] leaves a
    property out when its value is [undefined]. *)
Definition property (name : string) (v : option value) : object :=
  match v with
  | Some j => [(name, j)]
  | None => []
  end.

Definition has_property (name : string) (o : object) : bool :=
  existsb (fun p => String.eqb (fst p) name) o.

Definition get (name : string) (o : object) : option value :=
  snd <$> find (fun p => String.eqb (fst p) name) o.

Definition of_authorization_server (m : OAuthMetadata.t) : object :=
  property "issuer" (Some (String (OAuthMetadata.issuer m)))
  ++ property "service_documentation" (String <$> OAuthMetadata.service_documentation m)
  ++ property "authorization_endpoint" (Some (String (OAuthMetadata.authorization_endpoint m)))
  ++ property "response_types_supported"
       (Some (Strings (OAuthMetadata.response_types_supported m)))
  ++ property "code_challenge_methods_supported"
       (Some (Strings (OAuthMetadata.code_challenge_methods_supported m)))
  ++ property "token_endpoint" (Some (String (OAuthMetadata.token_endpoint m)))
  ++ property "token_endpoint_auth_methods_supported"
       (Some (Strings (OAuthMetadata.token_endpoint_auth_methods_supported m)))
  ++ property "grant_types_supported"
       (Some (Strings (OAuthMetadata.grant_types_supported m)))
  ++ property "scopes_supported" (Strings <$> OAuthMetadata.scopes_supported m)
  ++ property "revocation_endpoint" (String <$> OAuthMetadata.revocation_endpoint m)
  ++ property "revocation_endpoint_auth_methods_supported"
       (Strings <$> OAuthMetadata.revocation_endpoint_auth_methods_supported m)
  ++ property "registration_endpoint" (String <$> OAuthMetadata.registration_endpoint m).

Definition of_protected_resource (m : OAuthProtectedResourceMetadata.t) : object :=
  property "resource" (Some (String (OAuthProtectedResourceMetadata.resource m)))
  ++ property "authorization_servers"
       (Some (Strings (OAuthProtectedResourceMetadata.authorization_servers m)))
  ++ property "scopes_supported"
       (Strings <$> OAuthProtectedResourceMetadata.scopes_supported m)
  ++ property "resource_name" (String <$> OAuthProtectedResourceMetadata.resource_name m)
  ++ property "resource_documentation"
       (String <$> OAuthProtectedResourceMetadata.resource_documentation m).

End JSON.

Module Router.

(** The metadata object given to [metadataHandler]. *)
Inductive Metadata : Type :=
| AuthorizationServer (m : OAuthMetadata.t)
| ProtectedResource (m : OAuthProtectedResourceMetadata.t).

(** Modelled from the spec: [metadataHandler] is defined in
    [./handlers/metadata.js], which is absent; the handler serves the
    metadata document as the sole body of its response, the JSON
    serialization of the object it was given. *)
Definition metadata_document (m : Metadata) : JSON.object :=
  match m with
  | AuthorizationServer m => JSON.of_authorization_server m
  | ProtectedResource m => JSON.of_protected_resource m
  end.

(** What [router.use] mounts.  The handlers are built by absent modules and
    are kept as names, with the provider or the metadata they were built
    from; [router.use(handler)] without a path mounts at ["/"]. *)
Inductive Handler : Type :=
| authorizationHandler (provider : OAuthServerProvider.t)
| tokenHandler (provider : OAuthServerProvider.t)
| clientRegistrationHandler (clientsStore : OAuthRegisteredClientsStore.t)
| revocationHandler (provider : OAuthServerProvider.t)
| metadataHandler (metadata : Metadata)
| router (layers : list Layer)
with Layer : Type :=
| use (path : string) (handler : Handler).

(** An [express.Router()] and the layers mounted on it, in order. *)
Definition t : Type := list Layer.

Module ProtectedResourceRouterOptions.
Record t : Type := mk {
  issuerUrl : URL.t;
  serverUrl : URL.t;
  serviceDocumentationUrl : option URL.t;
  scopesSupported : option (list string);
  resourceName : option string
}.
End ProtectedResourceRouterOptions.

(** [Omit<ProtectedResourceRouterOptions, "issuerUrl" |
    "serviceDocumentationUrl" | "scopesSupported">]. *)
Module ProtectedResourceOverrides.
Record t : Type := mk {
  serverUrl : URL.t;
  resourceName : option string
}.
End ProtectedResourceOverrides.

(** [AuthRouterOptions]; the per-route options only reach the absent
    handlers and are left out. *)
Module AuthRouterOptions.
Record t : Type := mk {
  provider : OAuthServerProvider.t;
  issuerUrl : URL.t;
  baseUrl : option URL.t;
  serviceDocumentationUrl : option URL.t;
  scopesSupported : option (list string);
  protectedResourceOptions : option ProtectedResourceOverrides.t
}.
End AuthRouterOptions.

Definition checkIssuerUrl (issuer : URL.t) : Completion unit :=
  if negb (String.eqb (URL.protocol issuer) "https:")
     && negb (String.eqb (URL.hostname issuer) "localhost")
     && negb (String.eqb (URL.hostname issuer) "127.0.0.1")
  then Throw (Error "Issuer URL must be HTTPS")
  else if negb (String.eqb (URL.hash issuer) "")
  then Throw (Error ("Issuer URL must not have a fragment: " +:+ URL.href issuer))
  else if negb (String.eqb (URL.search issuer) "")
  then Throw (Error ("Issuer URL must not have a query string: " +:+ URL.href issuer))
  else Return tt.

(** [options.provider.clientsStore.registerClient ? "/register" : undefined]
    and [options.provider.revokeToken ? "/revoke" : undefined]. *)
Definition registration_endpoint (provider : OAuthServerProvider.t) : option string :=
  if OAuthRegisteredClientsStore.registerClient (OAuthServerProvider.clientsStore provider)
  then Some "/register" else None.

Definition revocation_endpoint (provider : OAuthServerProvider.t) : option string :=
  if OAuthServerProvider.revokeToken provider then Some "/revoke" else None.

Section Platform.

Variable new_URL : string -> option URL.t -> Completion URL.t.

Definition mcpProtectedResourceRouter (options : ProtectedResourceRouterOptions.t)
  : Completion t :=
  let issuer := ProtectedResourceRouterOptions.issuerUrl options in
  checkIssuerUrl issuer;;
  let protectedResourceMetadata :=
    OAuthProtectedResourceMetadata.mk
      (URL.href (ProtectedResourceRouterOptions.serverUrl options))
      [URL.href issuer]
      (ProtectedResourceRouterOptions.scopesSupported options)
      (ProtectedResourceRouterOptions.resourceName options)
      (URL.href <$> ProtectedResourceRouterOptions.serviceDocumentationUrl options) in
  mret [use "/.well-known/oauth-protected-resource"
          (metadataHandler (ProtectedResource protectedResourceMetadata))].

(** [endpoint ? new URL(endpoint, base).href : undefined]. *)
Definition optional_href (endpoint : option string) (base : URL.t)
  : Completion (option string) :=
  match endpoint with
  | Some endpoint => url ← new_URL endpoint (Some base); mret (Some (URL.href url))
  | None => mret None
  end.

(** The [metadata] object [mcpAuthRouter] builds, after the issuer check. *)
Definition authorization_server_metadata (options : AuthRouterOptions.t)
  : Completion OAuthMetadata.t :=
  let issuer := AuthRouterOptions.issuerUrl options in
  let baseUrl := AuthRouterOptions.baseUrl options in
  let provider := AuthRouterOptions.provider options in
  let authorization_endpoint := "/authorize" in
  let token_endpoint := "/token" in
  let registration_endpoint := registration_endpoint provider in
  let revocation_endpoint := revocation_endpoint provider in
  authorization_url ← new_URL authorization_endpoint (Some (default issuer baseUrl));
  token_url ← new_URL token_endpoint (Some (default issuer baseUrl));
  revocation_href ← optional_href revocation_endpoint (default issuer baseUrl);
  registration_href ← optional_href registration_endpoint (default issuer baseUrl);
  mret (OAuthMetadata.mk
          (URL.href issuer)
          (URL.href <$> AuthRouterOptions.serviceDocumentationUrl options)
          (URL.href authorization_url)
          ["code"]
          ["S256"]
          (URL.href token_url)
          ["client_secret_post"]
          ["authorization_code"; "refresh_token"]
          (AuthRouterOptions.scopesSupported options)
          revocation_href
          (if revocation_endpoint is Some _ then Some ["client_secret_post"] else None)
          registration_href).

Definition mcpAuthRouter (options : AuthRouterOptions.t) : Completion t :=
  let issuer := AuthRouterOptions.issuerUrl options in
  let provider := AuthRouterOptions.provider options in
  checkIssuerUrl issuer;;
  metadata ← authorization_server_metadata options;
  protected ← mcpProtectedResourceRouter
    (ProtectedResourceRouterOptions.mk
       issuer
       (default issuer
          (ProtectedResourceOverrides.serverUrl
             <$> AuthRouterOptions.protectedResourceOptions options))
       (AuthRouterOptions.serviceDocumentationUrl options)
       (AuthRouterOptions.scopesSupported options)
       (AuthRouterOptions.protectedResourceOptions options
          ≫= ProtectedResourceOverrides.resourceName));
  mret ([use "/authorize" (authorizationHandler provider);
         use "/token" (tokenHandler provider);
         use "/.well-known/oauth-authorization-server"
           (metadataHandler (AuthorizationServer metadata));
         use "/" (router protected)]
        ++ match registration_endpoint provider with
           | Some registration_endpoint =>
               [use registration_endpoint
                  (clientRegistrationHandler (OAuthServerProvider.clientsStore provider))]
           | None => []
           end
        ++ match revocation_endpoint provider with
           | Some revocation_endpoint =>
               [use revocation_endpoint (revocationHandler provider)]
           | None => []
           end).

Definition getOAuthProtectedResourceMetadataUrl (serverUrl : URL.t)
  : Completion string :=
  url ← new_URL "/.well-known/oauth-protected-resource" (Some serverUrl);
  mret (URL.href url).

End Platform.

End Router.

(** ** A URL parser to run the definitions with

    The theorems below hold for every parser.  To evaluate the definitions on
    the URLs of the scenarios, [BasicURL.new_URL] parses the strings of the
    form [scheme://host[:port][/path][?query][#fragment]] with scheme [http]
    or [https] that are already in serialized form, and resolves a reference
    that is an absolute path against such a URL; it throws on every other
    input. *)

Module BasicURL.

(** The part before the first [c], and the part after it if there is one. *)
Fixpoint break (c : ascii) (s : string) : string * option string :=
  match s with
  | EmptyString => (EmptyString, None)
  | String a rest =>
      if Ascii.eqb a c then (EmptyString, Some rest)
      else let (before, after) := break c rest in (String a before, after)
  end.

Fixpoint split (c : ascii) (s : string) : list string :=
  match s with
  | EmptyString => [EmptyString]
  | String a rest =>
      if Ascii.eqb a c then EmptyString :: split c rest
      else
        match split c rest with
        | seg :: segs => String a seg :: segs
        | [] => [String a EmptyString]
        end
  end.

Definition parse_port (p : option string) : option (option N) :=
  match p with
  | None => Some None
  | Some digits =>
      match NilZero.uint_of_string digits with
      | Some n => Some (Some (N.of_uint n))
      | None => None
      end
  end.

Definition invalid {A : Type} : Completion A := Throw (TypeError "Invalid URL").

Definition parse_absolute (input : string) : Completion URL.t :=
  let (input, fragment) := break "#" input in
  let (input, query) := break "?" input in
  let (scheme, rest) := break ":" input in
  if negb (String.eqb scheme "http" || String.eqb scheme "https") then invalid
  else
    match rest with
    | Some (String "/" (String "/" rest)) =>
        let (authority, path) := break "/" rest in
        let (host, port) := break ":" authority in
        if String.eqb host "" then invalid
        else
          match parse_port port with
          | Some port =>
              Return (URL.mk scheme "" "" (Some host) port
                        (URL.Segments (split "/" (default "" path))) query fragment)
          | None => invalid
          end
    | _ => invalid
    end.

Definition resolve_absolute_path (input : string) (base : URL.t) : Completion URL.t :=
  match input, URL.path base with
  | String "/" path, URL.Segments _ =>
      if URL.is_special base
      then Return (URL.mk (URL.scheme base) (URL.username base) (URL.password base)
                     (URL.host base) (URL.port base)
                     (URL.Segments (split "/" path)) None None)
      else invalid
  | _, _ => invalid
  end.

Definition new_URL (input : string) (base : option URL.t) : Completion URL.t :=
  match base with
  | None => parse_absolute input
  | Some base => resolve_absolute_path input base
  end.

End BasicURL.

(** ** PKCE: the S256 code challenge method (RFC 7636)

    The spec states the PKCE check with the S256 digest of the verifier:
    [BASE64URL(SHA256(code_verifier))], without padding.  The provider never
    computes it; it is defined here to state that check. *)

Module PKCE.

Local Open Scope Z_scope.

Definition word (x : Z) : Z := x mod 2 ^ 32.

Definition rotr (n x : Z) : Z := Z.lor (Z.shiftr x n) (word (Z.shiftl x (32 - n))).

Definition xor3 (x y z : Z) : Z := Z.lxor (Z.lxor x y) z.

Definition Ch (x y z : Z) : Z :=
  Z.lxor (Z.land x y) (Z.land (Z.lxor x 0xffffffff) z).

Definition Maj (x y z : Z) : Z := xor3 (Z.land x y) (Z.land x z) (Z.land y z).

Definition Sigma0 (x : Z) : Z := xor3 (rotr 2 x) (rotr 13 x) (rotr 22 x).
Definition Sigma1 (x : Z) : Z := xor3 (rotr 6 x) (rotr 11 x) (rotr 25 x).
Definition sigma0 (x : Z) : Z := xor3 (rotr 7 x) (rotr 18 x) (Z.shiftr x 3).
Definition sigma1 (x : Z) : Z := xor3 (rotr 17 x) (rotr 19 x) (Z.shiftr x 10).

(** The greatest [r] below [2 ^ bits] with [r ^ k <= n], one bit at a time
    from the top. *)
Fixpoint root_bits (k n : Z) (bits : nat) (r : Z) : Z :=
  match bits with
  | O => r
  | S bits =>
      let r' := r + 2 ^ Z.of_nat bits in
      root_bits k n bits (if (r' ^ k <=? n) then r' else r)
  end.

Definition is_prime (n : Z) : bool :=
  (1 <? n) && forallb (fun d => negb (n mod d =? 0))
                (map Z.of_nat (seq 2 (Z.to_nat n - 2))).

(** The first [count] primes, searched below [bound]. *)
Definition primes (count bound : nat) : list Z :=
  firstn count (filter is_prime (map Z.of_nat (seq 2 bound))).

(** The first thirty-two bits of the fractional part of the [k]-th root of
    [p]. *)
Definition root_fraction (k p : Z) : Z :=
  word (root_bits k (p * 2 ^ (32 * k)) 40 0).

(** The round constants: from the cube roots of the first sixty-four
    primes. *)
Definition K : list Z := map (root_fraction 3) (primes 64 400).

(** The initial hash value: from the square roots of the first eight
    primes. *)
Definition H0 : list Z := map (root_fraction 2) (primes 8 400).

(** The [n] low bytes of [x], most significant first. *)
Fixpoint big_endian (n : nat) (x : Z) : list Z :=
  match n with
  | O => []
  | S n => (Z.shiftr x (8 * Z.of_nat n)) mod 256 :: big_endian n x
  end.

Fixpoint of_big_endian (acc : Z) (bytes : list Z) : Z :=
  match bytes with
  | [] => acc
  | b :: bytes => of_big_endian (acc * 256 + b) bytes
  end.

(** Padding: a [1] bit, zeros up to 56 modulo 64 bytes, and the length of the
    message in bits on 64 bits. *)
Definition pad (message : list Z) : list Z :=
  let len := Z.of_nat (length message) in
  message ++ [0x80] ++ repeat 0 (Z.to_nat ((55 - len) mod 64))
          ++ big_endian 8 (8 * len).

(** Cut into pieces of [n] elements, for a list of at most [fuel] pieces. *)
Fixpoint chunks {A : Type} (fuel n : nat) (xs : list A) : list (list A) :=
  match fuel, xs with
  | O, _ => []
  | _, [] => []
  | S fuel, _ => firstn n xs :: chunks fuel n (skipn n xs)
  end.

(** The words [W16 .. W63], from the window of the sixteen words before. *)
Fixpoint expand (n : nat) (window : list Z) : list Z :=
  match n with
  | O => []
  | S n =>
      let w := word (sigma1 (nth 14 window 0) + nth 9 window 0
                     + sigma0 (nth 1 window 0) + nth 0 window 0) in
      w :: expand n (tl window ++ [w])
  end.

Definition schedule (block : list Z) : list Z :=
  let W := map (of_big_endian 0) (chunks 16 4 block) in
  W ++ expand 48 W.

Definition round (v : list Z) (kw : Z * Z) : list Z :=
  match v with
  | [a; b; c; d; e; f; g; h] =>
      let T1 := h + Sigma1 e + Ch e f g + fst kw + snd kw in
      let T2 := Sigma0 a + Maj a b c in
      [word (T1 + T2); a; b; c; word (d + T1); e; f; g]
  | _ => v
  end.

Definition add_words (xs ys : list Z) : list Z :=
  map (fun p => word (fst p + snd p)) (combine xs ys).

Definition compress (H block : list Z) : list Z :=
  add_words H (fold_left round (combine K (schedule block)) H).

(** The digest of a list of bytes: thirty-two bytes. *)
Definition sha256 (message : list Z) : list Z :=
  let padded := pad message in
  concat (map (big_endian 4)
            (fold_left compress (chunks (length padded) 64 padded) H0)).

Definition base64url_alphabet : string :=
  "ABCDEFGHIJKLMNOPQRSTUVWXYZabcdefghijklmnopqrstuvwxyz0123456789-_".

Definition base64url_digit (n : Z) : ascii :=
  default "A"%char (String.get (Z.to_nat n) base64url_alphabet).

Definition base64url_group (group : list Z) : string :=
  match group with
  | [a; b; c] =>
      let n := of_big_endian 0 [a; b; c] in
      String (base64url_digit (Z.shiftr n 18))
        (String (base64url_digit (Z.shiftr n 12 mod 64))
           (String (base64url_digit (Z.shiftr n 6 mod 64))
              (String (base64url_digit (n mod 64)) EmptyString)))
  | [a; b] =>
      let n := of_big_endian 0 [a; b; 0] in
      String (base64url_digit (Z.shiftr n 18))
        (String (base64url_digit (Z.shiftr n 12 mod 64))
           (String (base64url_digit (Z.shiftr n 6 mod 64)) EmptyString))
  | [a] =>
      let n := of_big_endian 0 [a; 0; 0] in
      String (base64url_digit (Z.shiftr n 18))
        (String (base64url_digit (Z.shiftr n 12 mod 64)) EmptyString)
  | _ => EmptyString
  end.

(** Base64 with the URL-safe alphabet and no padding. *)
Definition base64url (bytes : list Z) : string :=
  String.concat "" (map base64url_group (chunks (length bytes) 3 bytes)).

Definition bytes_of (s : string) : list Z :=
  map (fun c => Z.of_N (N_of_ascii c)) (list_ascii_of_string s).

(** The code challenge that belongs to a code verifier. *)
Definition S256 (code_verifier : string) : string :=
  base64url (sha256 (bytes_of code_verifier)).

End PKCE.

(** ** The redirect target the spec describes for [authorize]

    Following the words of the spec: the target is [params.redirect_uri] with
    [code], and [state] when it is present, as its query parameters.  (For a
    redirect URI that has no query of its own, appending the parameters is
    setting the query to them.) *)

Module Described.

Definition redirect_parameters (code : string) (params : AuthorizationParams.t)
  : URLSearchParams.t :=
  ("code", code)
  :: match AuthorizationParams.state params with
     | Some state => [("state", state)]
     | None => []
     end.

Definition redirect_target (new_URL : string -> option URL.t -> Completion URL.t)
    (code : string) (params : AuthorizationParams.t) : Completion string :=
  url ← new_URL (AuthorizationParams.redirectUri params) None;
  mret (URL.href
          (URL.set_search (URLSearchParams.toString (redirect_parameters code params)) url)).

End Described.

(** ** The scenario of the spec

    Issuer [https://auth.example.com]; client [c1] with redirect URI
    [https://app.example.com/cb]; an authorization request whose code
    challenge is the S256 digest of [verifier1]. *)

Module Scenario.

Definition issuer : URL.t :=
  URL.mk "https" "" "" (Some "auth.example.com") None (URL.Segments [""]) None None.

(** [http://auth.example.com]. *)
Definition insecure_issuer : URL.t :=
  URL.mk "http" "" "" (Some "auth.example.com") None (URL.Segments [""]) None None.

(** [https://auth.example.com/#] and [https://auth.example.com/?]: the
    issuer with a fragment, and with a query, that is present and empty. *)
Definition issuer_with_empty_fragment : URL.t :=
  URL.mk "https" "" "" (Some "auth.example.com") None (URL.Segments [""]) None (Some "").

Definition issuer_with_empty_query : URL.t :=
  URL.mk "https" "" "" (Some "auth.example.com") None (URL.Segments [""]) (Some "") None.

Definition c1 : OAuthClientInformationFull.t :=
  OAuthClientInformationFull.mk "c1" None ["https://app.example.com/cb"].

Definition c2 : OAuthClientInformationFull.t :=
  OAuthClientInformationFull.mk "c2" None ["https://other.example.com/cb"].

Definition params : AuthorizationParams.t :=
  AuthorizationParams.mk None (Some ["read"; "write"]) (PKCE.S256 "verifier1")
    "https://app.example.com/cb".

(** The same request with a [state], and with a redirect URI that is not the
    first one registered for the client. *)
Definition params_with_state : AuthorizationParams.t :=
  AuthorizationParams.mk (Some "xyz") (Some ["read"; "write"]) (PKCE.S256 "verifier1")
    "https://app.example.com/cb".

Definition params_other_redirect : AuthorizationParams.t :=
  AuthorizationParams.mk None (Some ["read"; "write"]) (PKCE.S256 "verifier1")
    "https://app.example.com/other".

(** Values returned by [randomUUID()] and [Date.now()]. *)
Definition X : string := "3f2b8c1e-5d4a-4c6b-9e7f-0a1b2c3d4e5f".
Definition T : string := "7c9e6679-7425-40de-944b-e07fc1f90ae7".
Definition T' : string := "16fd2706-8baf-433b-82eb-8c7fada847da".
Definition now : Z := 1700000000000.

(** The provider after [authorize(c1, params)], and after the exchange of
    the code that follows. *)
Definition authorized : InMemoryAuthProvider.t :=
  InMemoryAuthProvider.run BasicURL.new_URL
    [InMemoryAuthProvider.Authorize X c1 params] InMemoryAuthProvider.new.

Definition exchanged : InMemoryAuthProvider.t :=
  InMemoryAuthProvider.run BasicURL.new_URL
    [InMemoryAuthProvider.Authorize X c1 params;
     InMemoryAuthProvider.ExchangeAuthorizationCode T now c1 X (Some "verifier1")]
    InMemoryAuthProvider.new.

Definition router_options (provider : OAuthServerProvider.t) (issuer : URL.t)
  : Router.AuthRouterOptions.t :=
  Router.AuthRouterOptions.mk provider issuer None None None None.

(** The router of the in-memory provider, which has no [revokeToken], and the
    router of a provider that has both optional methods. *)
Definition router_of (provider : OAuthServerProvider.t) : Router.t :=
  match Router.mcpAuthRouter BasicURL.new_URL (router_options provider issuer) with
  | Return router => router
  | Throw _ => []
  end.

Definition revoking_provider : OAuthServerProvider.t :=
  OAuthServerProvider.mk (OAuthRegisteredClientsStore.mk true) true.

End Scenario.

(** ** Histories of calls: what a call writes, what a store holds *)

Module Histories.
Import InMemoryAuthProvider.

(** [randomUUID()] returned [token] to an [exchangeAuthorizationCode] call. *)
Definition mints (token : string) (call : Call) : bool :=
  match call with
  | ExchangeAuthorizationCode randomUUID _ _ _ _ => String.eqb randomUUID token
  | _ => false
  end.

(** The call is a call of a method of the clients store. *)
Definition on_store (call : Call) : bool :=
  match call with
  | GetClient _ | RegisterClient _ => true
  | _ => false
  end.

(** The call is a call of one of the methods that only read:
    [challengeForAuthorizationCode], [exchangeRefreshToken],
    [verifyAccessToken], [getClient]. *)
Definition reads (call : Call) : bool :=
  match call with
  | ChallengeForAuthorizationCode _ _ | ExchangeRefreshToken _ _ _
  | VerifyAccessToken _ _ | GetClient _ => true
  | _ => false
  end.

(** The clients store after [registerClient] on each element of a list, in
    order. *)
Definition register_all (registrations : list OAuthClientInformationFull.t)
    (store : InMemoryClientsStore.t) : InMemoryClientsStore.t :=
  fold_left (fun store clientMetadata =>
               snd (InMemoryClientsStore.registerClient clientMetadata store))
    registrations store.

(** The last element of a list of registrations that has a given client id. *)
Fixpoint latest (clientId : string) (registrations : list OAuthClientInformationFull.t)
  : option OAuthClientInformationFull.t :=
  match registrations with
  | [] => None
  | clientMetadata :: rest =>
      match latest clientId rest with
      | Some later => Some later
      | None =>
          if String.eqb (OAuthClientInformationFull.client_id clientMetadata) clientId
          then Some clientMetadata else None
      end
  end.

(** The paths at which the layers of a router are mounted, in order. *)
Definition mounted (router : Router.t) : list string :=
  map (fun layer => match layer with Router.use path _ => path end) router.

End Histories.

(** * Properties *)

(** ** Percent-encoding *)

Module PercentFacts.
Import Percent.

Ltac each_byte c := destruct c as [[] [] [] [] [] [] [] []].

Lemma urlencode_step_kept special c rest :
  all_kept special (urlencode rest) = true ->
  all_kept special (urlencode (String c rest)) = true.
Proof.
  intros IH. destruct special; each_byte c; cbn; exact IH.
Qed.

Lemma urlencode_all_kept special s : all_kept special (urlencode s) = true.
Proof.
  induction s as [|c rest IH]; [reflexivity|].
  now apply urlencode_step_kept.
Qed.

Lemma all_kept_app special s1 s2 :
  all_kept special s1 = true -> all_kept special s2 = true ->
  all_kept special (s1 +:+ s2) = true.
Proof.
  induction s1 as [|c rest IH]; simpl; [tauto|].
  intros [Hc Hrest]%andb_prop H2. rewrite Hc. simpl. now apply IH.
Qed.

Lemma encode_query_kept special s :
  all_kept special s = true ->
  encode_query special (remove_tab_newline s) = s.
Proof.
  induction s as [|c rest IH]; simpl; [reflexivity|].
  intros [Hc Hrest]%andb_prop. unfold kept in Hc.
  apply andb_prop in Hc as [Hq Ht].
  apply negb_true_iff in Hq, Ht. rewrite Ht. simpl. rewrite Hq.
  now rewrite IH.
Qed.

Lemma urlencode_uuid_bytes s : uuid_bytes s = true -> urlencode s = s.
Proof.
  induction s as [|c rest IH]; simpl; [reflexivity|].
  intros [Hc Hrest]%andb_prop. rewrite (IH Hrest).
  unfold urlencoded_safe.
  apply orb_prop in Hc as [-> | ->]; [reflexivity|].
  now rewrite !orb_true_r.
Qed.

End PercentFacts.

(** ** [URL] *)

Module URLFacts.

(** Setting [search] to one serialized pair [code=...] stores exactly that
    string as the query. *)
Lemma set_search_code code u :
  URL.set_search (URLSearchParams.toString (URLSearchParams.init [("code", code)])) u
  = URL.with_query (Some ("code=" +:+ Percent.urlencode code)) u.
Proof.
  unfold URLSearchParams.toString, URLSearchParams.init, URL.set_search. cbn.
  f_equal. f_equal.
  apply (PercentFacts.encode_query_kept (URL.is_special u)
           ("code=" +:+ Percent.urlencode code)).
  apply PercentFacts.all_kept_app.
  - now destruct (URL.is_special u).
  - apply PercentFacts.urlencode_all_kept.
Qed.

Lemma hash_empty u :
  URL.hash u = "" <-> URL.fragment u = None \/ URL.fragment u = Some "".
Proof.
  unfold URL.hash. destruct (URL.fragment u) as [f|]; [|tauto].
  destruct f; simpl; split; intros H; try tauto; try discriminate.
  destruct H as [H|H]; discriminate.
Qed.

Lemma search_empty u :
  URL.search u = "" <-> URL.query u = None \/ URL.query u = Some "".
Proof.
  unfold URL.search. destruct (URL.query u) as [q|]; [|tauto].
  destruct q; simpl; split; intros H; try tauto; try discriminate.
  destruct H as [H|H]; discriminate.
Qed.

Lemma protocol_https u : URL.protocol u = "https:" <-> URL.scheme u = "https".
Proof.
  unfold URL.protocol. split; [|now intros ->].
  intros H. change "https:" with ("https" +:+ ":") in H.
  revert H. generalize "https". intros s H.
  revert s H. induction (URL.scheme u) as [|c rest IH]; intros [|d s] H; simpl in H.
  - reflexivity.
  - injection H as _ H. destruct s; discriminate.
  - injection H as _ H. destruct rest; discriminate.
  - injection H as -> H. f_equal. now apply IH.
Qed.

End URLFacts.

(** ** The in-memory provider *)

Module ProviderFacts.
Import InMemoryAuthProvider.

Ltac method_steps :=
  unfold mbind, method_bind, mret, method_ret, get_this, modify_this, throw, lift;
  simpl.

(** *** What [exchangeAuthorizationCode] does, case by case *)

Lemma exchange_unknown randomUUID now client authorizationCode codeVerifier this :
  codes this !! authorizationCode = None ->
  exchangeAuthorizationCode randomUUID now client authorizationCode codeVerifier this
  = (Throw (Error "Invalid authorization code"), this).
Proof.
  intros Hcode. unfold exchangeAuthorizationCode. method_steps.
  now rewrite Hcode.
Qed.

Lemma exchange_other_client randomUUID now client authorizationCode codeVerifier this codeData :
  codes this !! authorizationCode = Some codeData ->
  OAuthClientInformationFull.client_id (CodeData.client codeData)
    <> OAuthClientInformationFull.client_id client ->
  exchangeAuthorizationCode randomUUID now client authorizationCode codeVerifier this
  = (Throw (Error (not_issued_to
                     (OAuthClientInformationFull.client_id (CodeData.client codeData))
                     (OAuthClientInformationFull.client_id client))), this).
Proof.
  intros Hcode Hid. unfold exchangeAuthorizationCode. method_steps.
  rewrite Hcode. apply String.eqb_neq in Hid. now rewrite Hid.
Qed.

Lemma exchange_issuing_client randomUUID now client authorizationCode codeVerifier this codeData :
  codes this !! authorizationCode = Some codeData ->
  OAuthClientInformationFull.client_id (CodeData.client codeData)
    = OAuthClientInformationFull.client_id client ->
  exchangeAuthorizationCode randomUUID now client authorizationCode codeVerifier this
  = (Return (OAuthTokens.mk randomUUID "Bearer" 3600
               (JS.join " " (default [] (AuthorizationParams.scopes (CodeData.params codeData))))),
     mk (clientsStore this)
        (delete authorizationCode (codes this))
        (<[randomUUID :=
             AuthInfo.mk randomUUID (OAuthClientInformationFull.client_id client)
               (default [] (AuthorizationParams.scopes (CodeData.params codeData)))
               (Some (now + 3600000)%Z) (Some "access")]> (tokens this))).
Proof.
  intros Hcode Hid. unfold exchangeAuthorizationCode. method_steps.
  rewrite Hcode. apply String.eqb_eq in Hid. now rewrite Hid.
Qed.

(** The three cases cover every call. *)
Lemma exchange_cases client authorizationCode this :
  codes this !! authorizationCode = None
  \/ (exists codeData, codes this !! authorizationCode = Some codeData
        /\ OAuthClientInformationFull.client_id (CodeData.client codeData)
           <> OAuthClientInformationFull.client_id client)
  \/ (exists codeData, codes this !! authorizationCode = Some codeData
        /\ OAuthClientInformationFull.client_id (CodeData.client codeData)
           = OAuthClientInformationFull.client_id client).
Proof.
  destruct (codes this !! authorizationCode) as [codeData|]; [|now left].
  right.
  destruct (String.eqb_spec
              (OAuthClientInformationFull.client_id (CodeData.client codeData))
              (OAuthClientInformationFull.client_id client)); eauto.
Qed.

Section Platform.

Variable new_URL : string -> option URL.t -> Completion URL.t.

Lemma authorize_state randomUUID client params this :
  snd (authorize new_URL randomUUID client params this)
  = mk (clientsStore this) (<[randomUUID := CodeData.mk params client]> (codes this))
       (tokens this).
Proof.
  unfold authorize. method_steps.
  now destruct (new_URL _ None).
Qed.

(** *** How a call changes the two maps *)

Lemma after_codes_other code call this :
  issues code call = false -> redeems code call = false ->
  codes (after new_URL call this) !! code = codes this !! code.
Proof.
  intros Hissue Hredeem. destruct call; simpl in *.
  - rewrite authorize_state. simpl.
    apply String.eqb_neq in Hissue. now rewrite lookup_insert_ne.
  - unfold challengeForAuthorizationCode. method_steps.
    now destruct (codes this !! authorizationCode).
  - apply String.eqb_neq in Hredeem.
    destruct (exchange_cases client authorizationCode this)
      as [H | [(cd & H & Hid) | (cd & H & Hid)]].
    + now rewrite exchange_unknown.
    + now rewrite (exchange_other_client _ _ _ _ _ _ _ H Hid).
    + rewrite (exchange_issuing_client _ _ _ _ _ _ _ H Hid). simpl.
      now rewrite lookup_delete_ne.
  - reflexivity.
  - unfold verifyAccessToken. method_steps.
    destruct (tokens this !! token) as [tokenData|]; [|reflexivity].
    now destruct (expired now tokenData || is_refresh tokenData).
  - reflexivity.
  - reflexivity.
Qed.

Lemma after_codes_absent code call this :
  issues code call = false ->
  codes this !! code = None ->
  codes (after new_URL call this) !! code = None.
Proof.
  intros Hissue Habsent.
  destruct (redeems code call) eqn:Hredeem.
  - destruct call; try discriminate. simpl in *.
    apply String.eqb_eq in Hredeem. subst authorizationCode.
    now rewrite exchange_unknown.
  - now rewrite after_codes_other.
Qed.

Lemma run_codes_other code calls : forall this,
  forallb (fun call => negb (issues code call) && negb (redeems code call)) calls = true ->
  codes (run new_URL calls this) !! code = codes this !! code.
Proof.
  induction calls as [|call calls IH]; intros this Hcalls; simpl in *; [reflexivity|].
  apply andb_prop in Hcalls as [Hcall Hcalls].
  apply andb_prop in Hcall as [Hissue Hredeem].
  apply negb_true_iff in Hissue, Hredeem.
  rewrite (IH _ Hcalls). now apply after_codes_other.
Qed.

Lemma run_codes_absent code calls : forall this,
  forallb (fun call => negb (issues code call)) calls = true ->
  codes this !! code = None ->
  codes (run new_URL calls this) !! code = None.
Proof.
  induction calls as [|call calls IH]; intros this Hcalls Habsent; simpl in *; [assumption|].
  apply andb_prop in Hcalls as [Hissue Hcalls].
  apply negb_true_iff in Hissue.
  apply (IH _ Hcalls). now apply after_codes_absent.
Qed.

(** *** The invariant of the token map *)

Lemma after_tokens_access call this :
  map_Forall (fun _ => access_token_record) (tokens this) ->
  map_Forall (fun _ => access_token_record) (tokens (after new_URL call this)).
Proof.
  intros Hinv. destruct call; simpl.
  - now rewrite authorize_state.
  - unfold challengeForAuthorizationCode. method_steps.
    now destruct (codes this !! authorizationCode).
  - destruct (exchange_cases client authorizationCode this)
      as [H | [(cd & H & Hid) | (cd & H & Hid)]].
    + now rewrite exchange_unknown.
    + now rewrite (exchange_other_client _ _ _ _ _ _ _ H Hid).
    + rewrite (exchange_issuing_client _ _ _ _ _ _ _ H Hid). simpl.
      apply map_Forall_insert_2; [|assumption].
      split; [reflexivity|]. now eexists.
  - assumption.
  - unfold verifyAccessToken. method_steps.
    destruct (tokens this !! token) as [tokenData|]; [|assumption].
    now destruct (expired now tokenData || is_refresh tokenData).
  - assumption.
  - assumption.
Qed.

Lemma reachable_tokens_access this :
  reachable new_URL this ->
  map_Forall (fun _ => access_token_record) (tokens this).
Proof.
  induction 1 as [|call this _ IH].
  - apply map_Forall_empty.
  - now apply after_tokens_access.
Qed.

Lemma reachable_run calls this :
  reachable new_URL this -> reachable new_URL (run new_URL calls this).
Proof.
  revert this. induction calls as [|call calls IH]; intros this H; simpl; [assumption|].
  apply IH. now constructor.
Qed.


(** C4, as amended.  The redirect target of [authorize] is the first
    redirect URI registered for the client, [client.redirect_uris[0]], with
    its query set to [code=] followed by the new code, the rest of the URL
    kept; [params] plays no part in it, neither its redirect URI nor its
    state.  The side effect is the record of the client and the parameters
    stored under the new code, one more record when the code is new.  The
    record is stored also when the redirect URI does not parse and the call
    throws. *)
Theorem C4_authorize_redirects_to_registered_uri
    randomUUID client params this target :
  new_URL (JS.to_string (OAuthClientInformationFull.redirect_uris client !! 0%nat)) None
    = Return target ->
  authorize new_URL randomUUID client params this
    = (Return (Response.redirect
                 (URL.href (URL.with_query
                              (Some ("code=" +:+ Percent.urlencode randomUUID)) target))),
       mk (clientsStore this)
          (<[randomUUID := CodeData.mk params client]> (codes this))
          (tokens this))
  /\ (Percent.uuid_bytes randomUUID = true -> Percent.urlencode randomUUID = randomUUID)
  /\ (forall params',
        fst (authorize new_URL randomUUID client params' this)
        = fst (authorize new_URL randomUUID client params this))
  /\ (codes this !! randomUUID = None ->
      size (codes (snd (authorize new_URL randomUUID client params this)))
      = S (size (codes this))).
Proof.
  intros Hparse. repeat split.
  - unfold authorize. method_steps. rewrite Hparse.
    now rewrite URLFacts.set_search_code.
  - apply PercentFacts.urlencode_uuid_bytes.
  - intros params'. unfold authorize. method_steps. now rewrite Hparse.
  - intros Hfresh. rewrite authorize_state. simpl.
    now apply map_size_insert_None.
Qed.

(** C3.  A code that [authorize] produced is exchanged by the first exchange
    that presents it with the client id it was issued to, whatever calls
    that neither issue nor present this code come in between.  An exchange
    that returns deletes the code, and from then on every exchange of the
    code throws [Invalid authorization code], for every client, and leaves
    the provider as it is, whatever calls come in between, as long as
    [randomUUID()] does not return the code again. *)
Theorem C3_code_exchanged_at_most_once
    code client params this between presenting randomUUID now codeVerifier :
  forallb (fun call => negb (issues code call) && negb (redeems code call)) between = true ->
  OAuthClientInformationFull.client_id presenting
    = OAuthClientInformationFull.client_id client ->
  let issued := run new_URL between (after new_URL (Authorize code client params) this) in
  let first := exchangeAuthorizationCode randomUUID now presenting code codeVerifier issued in
  (exists tokens, fst first = Return tokens /\ OAuthTokens.access_token tokens = randomUUID)
  /\ codes (snd first) !! code = None
  /\ forall later,
       forallb (fun call => negb (issues code call)) later = true ->
       forall randomUUID' now' client' codeVerifier',
         exchangeAuthorizationCode randomUUID' now' client' code codeVerifier'
           (run new_URL later (snd first))
         = (Throw (Error "Invalid authorization code"), run new_URL later (snd first)).
Proof.
  intros Hbetween Hid issued first.
  assert (Hcode : codes issued !! code = Some (CodeData.mk params client)).
  { unfold issued. rewrite (run_codes_other _ _ _ Hbetween). simpl.
    rewrite authorize_state. simpl. apply lookup_insert_eq. }
  assert (Hfirst : first = _)
    by (apply (exchange_issuing_client randomUUID now presenting code codeVerifier
                 issued _ Hcode); now symmetry).
  rewrite Hfirst. simpl.
  assert (Hgone : delete code (codes issued) !! code = None) by apply lookup_delete_eq.
  split; [eauto|]. split; [assumption|].
  intros later Hlater randomUUID' now' client' codeVerifier'.
  apply exchange_unknown. now apply run_codes_absent.
Qed.

(** C10.  In every state the provider can be in, every record of the token
    map has kind ['access'] and an expiry, so the test
    [tokenData.type === 'refresh'] of [verifyAccessToken] is false for every
    token it finds. *)
Theorem C10_tokens_are_access_tokens this token tokenData :
  reachable new_URL this ->
  tokens this !! token = Some tokenData ->
  AuthInfo.type tokenData = Some "access"
  /\ (exists expiresAt, AuthInfo.expiresAt tokenData = Some expiresAt)
  /\ is_refresh tokenData = false.
Proof.
  intros Hreach Htoken.
  destruct (reachable_tokens_access _ Hreach _ _ Htoken) as [Hkind Hexp].
  repeat split; try assumption.
  unfold is_refresh. now rewrite Hkind.
Qed.

(** C2, as amended.  In every state the provider can be in,
    [verifyAccessToken(t)] returns if and only if [t] is in the token map,
    its kind is ['access'] and [now <= expiresAt]: a token is still accepted
    at the instant [expiresAt] and rejected after it.  Otherwise the call
    throws [Invalid or expired token].  The provider is unchanged in both
    cases. *)
Theorem C2_verify_until_expiry_inclusive this now token :
  reachable new_URL this ->
  ((exists info, verifyAccessToken now token this = (Return info, this))
   <-> (exists tokenData expiresAt,
          tokens this !! token = Some tokenData
          /\ AuthInfo.type tokenData = Some "access"
          /\ AuthInfo.expiresAt tokenData = Some expiresAt
          /\ (now <= expiresAt)%Z))
  /\ ((exists info, verifyAccessToken now token this = (Return info, this))
      \/ verifyAccessToken now token this
         = (Throw (Error "Invalid or expired token"), this)).
Proof.
  intros Hreach. pose proof (reachable_tokens_access _ Hreach) as Hinv.
  unfold verifyAccessToken. method_steps.
  destruct (tokens this !! token) as [tokenData|] eqn:Htoken.
  - destruct (Hinv _ _ Htoken) as [Hkind [expiresAt Hexp]].
    unfold expired, is_refresh. rewrite Hkind, Hexp. simpl. rewrite orb_false_r.
    destruct (Z.ltb_spec expiresAt now) as [Hlt | Hle]; split.
    + split; [intros [info H]; discriminate|].
      intros (td & e & Htd & _ & He & Hnow).
      injection Htd as <-. rewrite Hexp in He. injection He as <-. lia.
    + now right.
    + split; [|eauto]. intros _. exists tokenData, expiresAt. auto.
    + left. eauto.
  - split; [|now right].
    split; [intros [info H]; discriminate|].
    intros (td & e & Htd & _). discriminate.
Qed.

End Platform.

(** C1, as amended.  [exchangeAuthorizationCode] does not look at the code
    verifier: its result and the state it leaves are the same for every
    verifier, supplied or not.  It returns exactly when the code is stored
    and was issued to the client id that presents it.  The challenge stored
    with a code is what [challengeForAuthorizationCode] returns, for a
    caller that checks the verifier itself. *)
Theorem C1_exchange_ignores_the_verifier
    randomUUID now client authorizationCode this :
  (forall codeVerifier codeVerifier',
     exchangeAuthorizationCode randomUUID now client authorizationCode codeVerifier this
     = exchangeAuthorizationCode randomUUID now client authorizationCode codeVerifier' this)
  /\ (forall codeVerifier,
        JS.returns (fst (exchangeAuthorizationCode randomUUID now client
                           authorizationCode codeVerifier this)) = true
        <-> exists codeData,
              codes this !! authorizationCode = Some codeData
              /\ OAuthClientInformationFull.client_id (CodeData.client codeData)
                 = OAuthClientInformationFull.client_id client)
  /\ (forall codeData,
        codes this !! authorizationCode = Some codeData ->
        challengeForAuthorizationCode client authorizationCode this
        = (Return (AuthorizationParams.codeChallenge (CodeData.params codeData)), this)).
Proof.
  split; [reflexivity|]. split.
  - intros codeVerifier.
    destruct (exchange_cases client authorizationCode this)
      as [H | [(cd & H & Hid) | (cd & H & Hid)]].
    + rewrite exchange_unknown by assumption. simpl.
      split; [discriminate|]. intros (cd & Hcd & _). congruence.
    + rewrite (exchange_other_client _ _ _ _ _ _ _ H Hid). simpl.
      split; [discriminate|]. intros (cd' & Hcd & Hid'). congruence.
    + rewrite (exchange_issuing_client _ _ _ _ _ _ _ H Hid). simpl.
      split; [eauto|reflexivity].
  - intros codeData Hcode. unfold challengeForAuthorizationCode. method_steps.
    now rewrite Hcode.
Qed.

(** C5.  When the client id that presents a stored code is not the client id
    the code was issued to, [exchangeAuthorizationCode] throws, whatever the
    code verifier is, and the provider, with its code map and its token map,
    is as it was before the call. *)
Theorem C5_exchange_by_other_client_fails
    randomUUID now client authorizationCode codeVerifier this codeData :
  codes this !! authorizationCode = Some codeData ->
  OAuthClientInformationFull.client_id (CodeData.client codeData)
    <> OAuthClientInformationFull.client_id client ->
  exchangeAuthorizationCode randomUUID now client authorizationCode codeVerifier this
  = (Throw (Error ("Authorization code was not issued to this client, "
                   +:+ OAuthClientInformationFull.client_id (CodeData.client codeData)
                   +:+ " != " +:+ OAuthClientInformationFull.client_id client)),
     this).
Proof. apply exchange_other_client. Qed.

(** C6.  An [exchangeAuthorizationCode] that returns stores one token
    record under the new token: kind ['access'], the scopes requested with
    the code, [expiresAt] one hour (3600000 ms) after [now]; one more record
    when the token is new.  It returns the token with [token_type] [Bearer],
    [expires_in] 3600 and the requested scopes joined by single spaces. *)
Theorem C6_exchange_mints_access_token
    randomUUID now client authorizationCode codeVerifier this result this' :
  exchangeAuthorizationCode randomUUID now client authorizationCode codeVerifier this
    = (Return result, this') ->
  exists codeData,
    codes this !! authorizationCode = Some codeData
    /\ let scopes := default [] (AuthorizationParams.scopes (CodeData.params codeData)) in
       tokens this'
       = <[randomUUID :=
             AuthInfo.mk randomUUID (OAuthClientInformationFull.client_id client) scopes
               (Some (now + 3600 * 1000)%Z) (Some "access")]> (tokens this)
       /\ result = OAuthTokens.mk randomUUID "Bearer" 3600 (JS.join " " scopes)
       /\ (tokens this !! randomUUID = None -> size (tokens this') = S (size (tokens this))).
Proof.
  intros Hcall.
  destruct (exchange_cases client authorizationCode this)
    as [H | [(cd & H & Hid) | (cd & H & Hid)]].
  - rewrite exchange_unknown in Hcall by assumption. discriminate.
  - rewrite (exchange_other_client _ _ _ _ _ _ _ H Hid) in Hcall. discriminate.
  - rewrite (exchange_issuing_client _ _ _ _ _ _ _ H Hid) in Hcall.
    injection Hcall as <- <-. exists cd. simpl. repeat split; try assumption.
    intros Hfresh. now apply map_size_insert_None.
Qed.

(** C7.  [exchangeRefreshToken] throws [Not implemented for example demo]
    for every client, refresh token and scopes, in every state, and leaves
    the provider, with its code map and its token map, unchanged. *)
Theorem C7_refresh_not_implemented _client _refreshToken _scopes this :
  exchangeRefreshToken _client _refreshToken _scopes this
  = (Throw (Error "Not implemented for example demo"), this).
Proof. reflexivity. Qed.

End ProviderFacts.

(** ** The authorization router *)

Module RouterFacts.
Import Router.

Lemma checkIssuerUrl_throws issuer :
  (exists message, checkIssuerUrl issuer = Throw (Error message))
  <-> (URL.protocol issuer <> "https:"
       /\ URL.hostname issuer <> "localhost"
       /\ URL.hostname issuer <> "127.0.0.1")
      \/ URL.hash issuer <> ""
      \/ URL.search issuer <> "".
Proof.
  unfold checkIssuerUrl.
  destruct (String.eqb_spec (URL.protocol issuer) "https:") as [Hp|Hp];
  destruct (String.eqb_spec (URL.hostname issuer) "localhost") as [Hl|Hl];
  destruct (String.eqb_spec (URL.hostname issuer) "127.0.0.1") as [Hi|Hi];
  destruct (String.eqb_spec (URL.hash issuer) "") as [Hh|Hh];
  destruct (String.eqb_spec (URL.search issuer) "") as [Hs|Hs];
  simpl; split;
  try (intros [message H]; discriminate);
  try (intros _; eauto; fail);
  try tauto.
Qed.

Section Platform.

Variable new_URL : string -> option URL.t -> Completion URL.t.

Lemma mcpAuthRouter_checks_first options e :
  checkIssuerUrl (AuthRouterOptions.issuerUrl options) = Throw e ->
  mcpAuthRouter new_URL options = Throw e.
Proof.
  intros Hcheck. unfold mcpAuthRouter.
  unfold mbind, completion_bind, JS.bind. now rewrite Hcheck.
Qed.

Lemma optional_href_some endpoint base href :
  optional_href new_URL endpoint base = Return href ->
  match endpoint with
  | Some endpoint =>
      exists url, new_URL endpoint (Some base) = Return url /\ href = Some (URL.href url)
  | None => href = None
  end.
Proof.
  unfold optional_href. destruct endpoint as [endpoint|]; simpl.
  - unfold mbind, completion_bind, JS.bind.
    destruct (new_URL endpoint (Some base)) as [url|]; [|discriminate].
    intros [= <-]. eauto.
  - now intros [= <-].
Qed.

(** The optional fields of the metadata object follow the capabilities. *)
Lemma metadata_optional_fields options metadata :
  authorization_server_metadata new_URL options = Return metadata ->
  let base := default (AuthRouterOptions.issuerUrl options) (AuthRouterOptions.baseUrl options) in
  let provider := AuthRouterOptions.provider options in
  match revocation_endpoint provider with
  | Some endpoint =>
      (exists url, new_URL endpoint (Some base) = Return url
                   /\ OAuthMetadata.revocation_endpoint metadata = Some (URL.href url))
      /\ OAuthMetadata.revocation_endpoint_auth_methods_supported metadata
         = Some ["client_secret_post"]
  | None =>
      OAuthMetadata.revocation_endpoint metadata = None
      /\ OAuthMetadata.revocation_endpoint_auth_methods_supported metadata = None
  end
  /\ match registration_endpoint provider with
     | Some endpoint =>
         exists url, new_URL endpoint (Some base) = Return url
                     /\ OAuthMetadata.registration_endpoint metadata = Some (URL.href url)
     | None => OAuthMetadata.registration_endpoint metadata = None
     end.
Proof.
  unfold authorization_server_metadata. cbv zeta.
  unfold mbind, completion_bind, JS.bind at 1 2.
  destruct (new_URL "/authorize" _) as [authorization_url|]; [|discriminate].
  destruct (new_URL "/token" _) as [token_url|]; [|discriminate].
  unfold JS.bind at 1.
  destruct (optional_href new_URL (revocation_endpoint _) _) as [revocation|] eqn:Hrev;
    [|discriminate].
  unfold JS.bind at 1.
  destruct (optional_href new_URL (registration_endpoint _) _) as [registration|] eqn:Hreg;
    [|discriminate].
  intros [= <-]. simpl.
  apply optional_href_some in Hrev, Hreg.
  destruct (revocation_endpoint _), (registration_endpoint _); subst; auto.
Qed.

Lemma mcpAuthRouter_metadata options router :
  mcpAuthRouter new_URL options = Return router ->
  exists metadata,
    authorization_server_metadata new_URL options = Return metadata
    /\ In (use "/.well-known/oauth-authorization-server"
             (metadataHandler (AuthorizationServer metadata))) router.
Proof.
  unfold mcpAuthRouter. cbv zeta.
  unfold mbind, completion_bind, JS.bind at 1.
  destruct (checkIssuerUrl _) as [[]|] eqn:Hcheck; [|discriminate].
  unfold JS.bind at 1.
  destruct (authorization_server_metadata new_URL options) as [metadata|]; [|discriminate].
  unfold JS.bind at 1.
  destruct (mcpProtectedResourceRouter _) as [protected|]; [|discriminate].
  intros [= <-]. exists metadata. split; [reflexivity|].
  simpl. auto.
Qed.

Lemma document_optional_properties metadata :
  let document := metadata_document (AuthorizationServer metadata) in
  JSON.get "revocation_endpoint" document
    = JSON.String <$> OAuthMetadata.revocation_endpoint metadata
  /\ JSON.get "revocation_endpoint_auth_methods_supported" document
     = JSON.Strings <$> OAuthMetadata.revocation_endpoint_auth_methods_supported metadata
  /\ JSON.get "registration_endpoint" document
     = JSON.String <$> OAuthMetadata.registration_endpoint metadata
  /\ JSON.has_property "revocation_endpoint" document
     = bool_decide (is_Some (OAuthMetadata.revocation_endpoint metadata))
  /\ JSON.has_property "revocation_endpoint_auth_methods_supported" document
     = bool_decide (is_Some (OAuthMetadata.revocation_endpoint_auth_methods_supported metadata))
  /\ JSON.has_property "registration_endpoint" document
     = bool_decide (is_Some (OAuthMetadata.registration_endpoint metadata)).
Proof.
  destruct metadata as [issuer doc authz rts ccm tok team gts scopes rev revm reg].
  destruct doc, scopes, rev, revm, reg; repeat split; reflexivity.
Qed.


(** What the issuer check tests.  It throws an [Error] exactly when the
    scheme of the issuer is not [https] while its host name is neither
    [localhost] nor [127.0.0.1], or the fragment is present and not empty, or
    the query is present and not empty: [issuer.hash] and [issuer.search]
    are empty strings for a fragment and a query that are present and
    empty.  The check is the first thing [mcpAuthRouter] does: when it
    throws, [mcpAuthRouter] throws the same exception and returns no
    router. *)
Lemma issuer_check_by_components options :
  let issuer := AuthRouterOptions.issuerUrl options in
  ((exists message, checkIssuerUrl issuer = Throw (Error message))
   <-> (URL.scheme issuer <> "https"
        /\ URL.hostname issuer <> "localhost"
        /\ URL.hostname issuer <> "127.0.0.1")
       \/ (exists fragment, URL.fragment issuer = Some fragment /\ fragment <> "")
       \/ (exists query, URL.query issuer = Some query /\ query <> ""))
  /\ (forall e, checkIssuerUrl issuer = Throw e ->
                mcpAuthRouter new_URL options = Throw e).
Proof.
  intros issuer. split.
  - rewrite checkIssuerUrl_throws, URLFacts.protocol_https.
    rewrite URLFacts.hash_empty, URLFacts.search_empty.
    assert (Hpresent : forall component : option string,
              ~ (component = None \/ component = Some "")
              <-> exists value, component = Some value /\ value <> "").
    { intros [value|]; split.
      - intros H. exists value. split; [reflexivity|]. intros ->. tauto.
      - intros (v & [= <-] & Hv) [Habsent|[= Hempty]]; [discriminate|contradiction].
      - intros H. exfalso. tauto.
      - intros (v & H & _). discriminate. }
    now rewrite !Hpresent.
  - apply mcpAuthRouter_checks_first.
Qed.

(** C9.  In the metadata document that the router serves at
    [/.well-known/oauth-authorization-server], the properties
    [revocation_endpoint] and [revocation_endpoint_auth_methods_supported]
    are present exactly when the provider has [revokeToken], and
    [registration_endpoint] exactly when its clients store has
    [registerClient].  A property that is present holds the URL of the
    endpoint, or the list of methods; one that is not present is no property
    of the document at all. *)
Theorem C9_optional_endpoints_in_metadata options router :
  mcpAuthRouter new_URL options = Return router ->
  exists metadata,
    In (use "/.well-known/oauth-authorization-server"
          (metadataHandler (AuthorizationServer metadata))) router
    /\ let document := metadata_document (AuthorizationServer metadata) in
       let provider := AuthRouterOptions.provider options in
       let base := default (AuthRouterOptions.issuerUrl options)
                     (AuthRouterOptions.baseUrl options) in
       let revokeToken := OAuthServerProvider.revokeToken provider in
       let registerClient :=
         OAuthRegisteredClientsStore.registerClient
           (OAuthServerProvider.clientsStore provider) in
       JSON.has_property "revocation_endpoint" document = revokeToken
       /\ JSON.has_property "revocation_endpoint_auth_methods_supported" document
          = revokeToken
       /\ JSON.has_property "registration_endpoint" document = registerClient
       /\ (revokeToken = true ->
           (exists url, new_URL "/revoke" (Some base) = Return url
                        /\ JSON.get "revocation_endpoint" document
                           = Some (JSON.String (URL.href url)))
           /\ JSON.get "revocation_endpoint_auth_methods_supported" document
              = Some (JSON.Strings ["client_secret_post"]))
       /\ (registerClient = true ->
           exists url, new_URL "/register" (Some base) = Return url
                       /\ JSON.get "registration_endpoint" document
                          = Some (JSON.String (URL.href url))).
Proof.
  intros Hrouter.
  destruct (mcpAuthRouter_metadata _ _ Hrouter) as (metadata & Hmetadata & Hin).
  exists metadata. split; [assumption|].
  pose proof (metadata_optional_fields _ _ Hmetadata) as [Hrev Hreg].
  destruct (document_optional_properties metadata)
    as (Grev & Gmethods & Greg & Prev & Pmethods & Preg).
  cbv zeta in *.
  rewrite Grev, Gmethods, Greg, Prev, Pmethods, Preg.
  unfold revocation_endpoint, registration_endpoint in Hrev, Hreg.
  destruct (OAuthServerProvider.revokeToken _),
    (OAuthRegisteredClientsStore.registerClient _).
  - destruct Hrev as [(url & Hurl & ->) ->], Hreg as (url' & Hurl' & ->).
    simpl. repeat split; eauto.
  - destruct Hrev as [(url & Hurl & ->) ->]. rewrite Hreg.
    simpl. repeat split; eauto; discriminate.
  - destruct Hrev as [-> ->], Hreg as (url' & Hurl' & ->).
    simpl. repeat split; eauto; discriminate.
  - destruct Hrev as [-> ->]. rewrite Hreg.
    simpl. repeat split; discriminate.
Qed.

End Platform.
End RouterFacts.

(** ** The scenario, evaluated *)

Module ScenarioFacts.
Import InMemoryAuthProvider Scenario.

(** The S256 transformation on the example of RFC 7636, appendix B. *)
Example S256_rfc7636 :
  PKCE.S256 "dBjftJeZ4CVP-mB92K27uhbUJU1p1r_wW1gFWFOEjXk"
  = "E9Melhoa2OwvFrEMTJguCHaoeK1t8URWbuGJSstw-cM".
Proof. vm_compute. reflexivity. Qed.

Lemma authorized_reachable : reachable BasicURL.new_URL authorized.
Proof. apply ProviderFacts.reachable_run. constructor. Defined.

Lemma exchanged_reachable : reachable BasicURL.new_URL exchanged.
Proof. apply ProviderFacts.reachable_run. constructor. Defined.

(** C1 fails as stated: the code was issued for the challenge of
    [verifier1]; the exchange that supplies [verifier2], whose S256 digest is
    not the stored challenge, returns tokens. *)
Lemma C1_wrong_verifier_accepted :
  codes authorized !! X = Some (CodeData.mk params c1)
  /\ PKCE.S256 "verifier2" <> AuthorizationParams.codeChallenge params
  /\ fst (exchangeAuthorizationCode T now c1 X (Some "verifier2") authorized)
     = Return (OAuthTokens.mk T "Bearer" 3600 "read write").
Proof.
  split; [vm_compute; reflexivity|].
  split; [vm_compute; discriminate|].
  vm_compute. reflexivity.
Qed.

Lemma C1_scenario :
  codes authorized !! X = Some (CodeData.mk params c1)
  /\ challengeForAuthorizationCode c1 X authorized
     = (Return (AuthorizationParams.codeChallenge params), authorized)
  /\ exchangeAuthorizationCode T now c1 X (Some "verifier1") authorized
     = exchangeAuthorizationCode T now c1 X (Some "verifier2") authorized.
Proof.
  assert (Hcode : codes authorized !! X = Some (CodeData.mk params c1))
    by (vm_compute; reflexivity).
  destruct (ProviderFacts.C1_exchange_ignores_the_verifier T now c1 X authorized)
    as (Hsame & _ & Hchallenge).
  split; [exact Hcode|].
  split; [exact (Hchallenge _ Hcode) | apply Hsame].
Defined.

(** C2 fails as stated: the token of the scenario expires at
    [now + 3600000], and at that very instant [verifyAccessToken] returns. *)
Lemma C2_accepted_at_expiry :
  reachable BasicURL.new_URL exchanged
  /\ AuthInfo.expiresAt <$> tokens exchanged !! T = Some (Some (now + 3600000)%Z)
  /\ verifyAccessToken (now + 3600000) T exchanged
     = (Return (AuthInfo.mk T "c1" ["read"; "write"] (Some 1700003600%Z) None), exchanged).
Proof.
  split; [exact exchanged_reachable|].
  split; vm_compute; reflexivity.
Qed.

Lemma C2_scenario :
  reachable BasicURL.new_URL exchanged
  /\ ((exists info, verifyAccessToken (now + 3600001) T exchanged = (Return info, exchanged))
      <-> (exists tokenData expiresAt,
             tokens exchanged !! T = Some tokenData
             /\ AuthInfo.type tokenData = Some "access"
             /\ AuthInfo.expiresAt tokenData = Some expiresAt
             /\ (now + 3600001 <= expiresAt)%Z)).
Proof.
  split; [exact exchanged_reachable|].
  exact (proj1 (ProviderFacts.C2_verify_until_expiry_inclusive BasicURL.new_URL
                  exchanged (now + 3600001) T exchanged_reachable)).
Defined.

Lemma C3_scenario :
  let between :=
    [Authorize T' c2 params; VerifyAccessToken now T;
     ExchangeAuthorizationCode T now c1 T' None] in
  let first := exchangeAuthorizationCode T now c1 X (Some "verifier1")
                 (run BasicURL.new_URL between
                    (after BasicURL.new_URL (Authorize X c1 params) new)) in
  (exists tokens, fst first = Return tokens /\ OAuthTokens.access_token tokens = T)
  /\ codes (snd first) !! X = None
  /\ exchangeAuthorizationCode T' (now + 1) c1 X (Some "verifier1")
       (run BasicURL.new_URL [Authorize T' c2 params] (snd first))
     = (Throw (Error "Invalid authorization code"),
        run BasicURL.new_URL [Authorize T' c2 params] (snd first)).
Proof.
  intros between first.
  destruct (ProviderFacts.C3_code_exchanged_at_most_once BasicURL.new_URL
              X c1 params new between c1 T now (Some "verifier1")
              eq_refl eq_refl) as (Hfirst & Hgone & Hlater).
  split; [exact Hfirst|]. split; [exact Hgone|].
  exact (Hlater [Authorize T' c2 params] eq_refl T' (now + 1)%Z c1 (Some "verifier1")).
Defined.

(** C4 fails as stated.  With a [state] in the request, the target carries
    the code only, where the spec describes the code and the state.  With a
    requested redirect URI other than the first registered one, the target
    is the registered one. *)
Lemma C4_target_without_state_on_registered_uri :
  (fst (authorize BasicURL.new_URL X c1 params_with_state new)
   = Return (Response.redirect
               "https://app.example.com/cb?code=3f2b8c1e-5d4a-4c6b-9e7f-0a1b2c3d4e5f")
   /\ Described.redirect_target BasicURL.new_URL X params_with_state
      = Return "https://app.example.com/cb?code=3f2b8c1e-5d4a-4c6b-9e7f-0a1b2c3d4e5f&state=xyz")
  /\ (fst (authorize BasicURL.new_URL X c1 params_other_redirect new)
      = Return (Response.redirect
                  "https://app.example.com/cb?code=3f2b8c1e-5d4a-4c6b-9e7f-0a1b2c3d4e5f")
      /\ Described.redirect_target BasicURL.new_URL X params_other_redirect
         = Return "https://app.example.com/other?code=3f2b8c1e-5d4a-4c6b-9e7f-0a1b2c3d4e5f").
Proof. repeat split; vm_compute; reflexivity. Qed.

Lemma C4_scenario :
  let target :=
    URL.mk "https" "" "" (Some "app.example.com") None (URL.Segments ["cb"]) None None in
  BasicURL.new_URL "https://app.example.com/cb" None = Return target
  /\ authorize BasicURL.new_URL X c1 params_with_state new
     = (Return (Response.redirect
                  (URL.href (URL.with_query (Some ("code=" +:+ Percent.urlencode X)) target))),
        mk (clientsStore new) (<[X := CodeData.mk params_with_state c1]> (codes new))
           (tokens new)).
Proof.
  intros target.
  split; [reflexivity|].
  exact (proj1 (ProviderFacts.C4_authorize_redirects_to_registered_uri BasicURL.new_URL
                  X c1 params_with_state new target eq_refl)).
Defined.

Lemma C5_scenario :
  codes authorized !! X = Some (CodeData.mk params c1)
  /\ exchangeAuthorizationCode T now c2 X (Some "verifier1") authorized
     = (Throw (Error "Authorization code was not issued to this client, c1 != c2"),
        authorized).
Proof.
  assert (Hcode : codes authorized !! X = Some (CodeData.mk params c1))
    by (vm_compute; reflexivity).
  split; [exact Hcode|].
  refine (ProviderFacts.C5_exchange_by_other_client_fails T now c2 X (Some "verifier1")
            authorized (CodeData.mk params c1) Hcode _).
  simpl. discriminate.
Defined.

Lemma C6_scenario :
  exchangeAuthorizationCode T now c1 X (Some "verifier1") authorized
  = (Return (OAuthTokens.mk T "Bearer" 3600 "read write"), exchanged)
  /\ tokens exchanged
     = <[T := AuthInfo.mk T "c1" ["read"; "write"] (Some 1700003600000%Z) (Some "access")]>
         (tokens authorized).
Proof.
  assert (Hcall : exchangeAuthorizationCode T now c1 X (Some "verifier1") authorized
                  = (Return (OAuthTokens.mk T "Bearer" 3600 "read write"), exchanged))
    by (vm_compute; reflexivity).
  split; [exact Hcall|].
  destruct (ProviderFacts.C6_exchange_mints_access_token T now c1 X (Some "verifier1")
              authorized _ _ Hcall) as (codeData & Hcode & Htokens & _).
  assert (Hdata : codeData = CodeData.mk params c1).
  { assert (H : codes authorized !! X = Some (CodeData.mk params c1))
      by (vm_compute; reflexivity).
    rewrite H in Hcode. now injection Hcode. }
  rewrite Hdata in Htokens. exact Htokens.
Defined.

Lemma C10_scenario :
  let tokenData :=
    AuthInfo.mk T "c1" ["read"; "write"] (Some 1700003600000%Z) (Some "access") in
  reachable BasicURL.new_URL exchanged
  /\ tokens exchanged !! T = Some tokenData
  /\ is_refresh tokenData = false.
Proof.
  intros tokenData.
  assert (Htoken : tokens exchanged !! T = Some tokenData) by (vm_compute; reflexivity).
  split; [exact exchanged_reachable|]. split; [exact Htoken|].
  exact (proj2 (proj2 (ProviderFacts.C10_tokens_are_access_tokens BasicURL.new_URL
                         exchanged T tokenData exchanged_reachable Htoken))).
Defined.

(** The scenario of the spec: [http://auth.example.com] is refused. *)
Lemma insecure_issuer_refused :
  Router.checkIssuerUrl insecure_issuer = Throw (Error "Issuer URL must be HTTPS")
  /\ Router.mcpAuthRouter BasicURL.new_URL
       (router_options OAuthServerProvider.inMemory insecure_issuer)
     = Throw (Error "Issuer URL must be HTTPS").
Proof.
  assert (Hcheck : Router.checkIssuerUrl insecure_issuer
                   = Throw (Error "Issuer URL must be HTTPS")) by reflexivity.
  split; [exact Hcheck|].
  exact (proj2 (RouterFacts.issuer_check_by_components BasicURL.new_URL
                  (router_options OAuthServerProvider.inMemory insecure_issuer))
           _ Hcheck).
Defined.

(** C8.  The code on an issuer that has a fragment, or a query, which is
    present and empty: [https://auth.example.com/#] and
    [https://auth.example.com/?].  The option is documented as a URL that
    has no query or fragment components, and the claim has such an issuer
    refused.  [issuer.hash] and [issuer.search] are empty strings for these
    URLs, so the check returns, [mcpAuthRouter] returns a router, and its
    metadata publishes the issuer with the [#], or the [?]. *)
Theorem C8_empty_fragment_or_query_passes_the_check :
  (BasicURL.new_URL "https://auth.example.com/#" None = Return issuer_with_empty_fragment
   /\ URL.fragment issuer_with_empty_fragment = Some ""
   /\ URL.hash issuer_with_empty_fragment = ""
   /\ Router.checkIssuerUrl issuer_with_empty_fragment = Return tt
   /\ JS.returns (Router.mcpAuthRouter BasicURL.new_URL
                    (router_options OAuthServerProvider.inMemory
                       issuer_with_empty_fragment)) = true
   /\ JS.bind (Router.authorization_server_metadata BasicURL.new_URL
                 (router_options OAuthServerProvider.inMemory issuer_with_empty_fragment))
        (fun metadata => Return (OAuthMetadata.issuer metadata))
      = Return "https://auth.example.com/#")
  /\ (BasicURL.new_URL "https://auth.example.com/?" None = Return issuer_with_empty_query
      /\ URL.query issuer_with_empty_query = Some ""
      /\ URL.search issuer_with_empty_query = ""
      /\ Router.checkIssuerUrl issuer_with_empty_query = Return tt
      /\ JS.returns (Router.mcpAuthRouter BasicURL.new_URL
                       (router_options OAuthServerProvider.inMemory
                          issuer_with_empty_query)) = true
      /\ JS.bind (Router.authorization_server_metadata BasicURL.new_URL
                    (router_options OAuthServerProvider.inMemory issuer_with_empty_query))
           (fun metadata => Return (OAuthMetadata.issuer metadata))
         = Return "https://auth.example.com/?").
Proof. repeat split; vm_compute; reflexivity. Qed.

(** The scenario of the spec: the metadata of the in-memory provider, which
    has no [revokeToken], has no [revocation_endpoint]. *)
Lemma C9_scenario :
  Router.mcpAuthRouter BasicURL.new_URL (router_options OAuthServerProvider.inMemory issuer)
  = Return (router_of OAuthServerProvider.inMemory)
  /\ exists metadata,
       In (Router.use "/.well-known/oauth-authorization-server"
             (Router.metadataHandler (Router.AuthorizationServer metadata)))
          (router_of OAuthServerProvider.inMemory)
       /\ JSON.has_property "revocation_endpoint"
            (Router.metadata_document (Router.AuthorizationServer metadata)) = false
       /\ JSON.has_property "registration_endpoint"
            (Router.metadata_document (Router.AuthorizationServer metadata)) = true.
Proof.
  assert (Hrouter : Router.mcpAuthRouter BasicURL.new_URL
                      (router_options OAuthServerProvider.inMemory issuer)
                    = Return (router_of OAuthServerProvider.inMemory)) by reflexivity.
  split; [exact Hrouter|].
  destruct (RouterFacts.C9_optional_endpoints_in_metadata BasicURL.new_URL _ _ Hrouter)
    as (metadata & Hin & Hrev & _ & Hreg & _).
  exists metadata. split; [exact Hin|]. split; [exact Hrev | exact Hreg].
Defined.

End ScenarioFacts.

(** ** Further properties of the in-memory stores *)

Module StoreFacts.
Import InMemoryAuthProvider Histories.

Lemma register_all_lookup clientId registrations : forall store,
  InMemoryClientsStore.clients (register_all registrations store) !! clientId
  = match latest clientId registrations with
    | Some clientMetadata => Some clientMetadata
    | None => InMemoryClientsStore.clients store !! clientId
    end.
Proof.
  induction registrations as [|clientMetadata rest IH]; intros store; [reflexivity|].
  change (register_all (clientMetadata :: rest) store)
    with (register_all rest (snd (InMemoryClientsStore.registerClient clientMetadata store))).
  rewrite IH. simpl.
  destruct (latest clientId rest); [reflexivity|].
  destruct (String.eqb_spec (OAuthClientInformationFull.client_id clientMetadata) clientId)
    as [->|Hne].
  - apply lookup_insert_eq.
  - now apply lookup_insert_ne.
Qed.

(** X1.  After any sequence of [registerClient] calls on a new clients
    store, [getClient(id)] returns the metadata of the last registration made
    with that client id, and [undefined] when there was none; it leaves the
    store as it is. *)
Theorem X1_getClient_returns_latest_registration registrations clientId :
  InMemoryClientsStore.getClient clientId
    (register_all registrations InMemoryClientsStore.new)
  = (Return (latest clientId registrations),
     register_all registrations InMemoryClientsStore.new).
Proof.
  unfold InMemoryClientsStore.getClient, mbind, method_bind, get_this, mret, method_ret.
  simpl. rewrite register_all_lookup. simpl.
  now destruct (latest clientId registrations).
Qed.

(** *** Tokens stay *)

Lemma after_tokens_kept new_URL token call this :
  mints token call = false ->
  tokens (after new_URL call this) !! token = tokens this !! token.
Proof.
  intros Hmint. destruct call; simpl in *.
  - now rewrite ProviderFacts.authorize_state.
  - unfold challengeForAuthorizationCode, mbind, method_bind, get_this, throw, mret,
      method_ret. simpl. now destruct (codes this !! authorizationCode).
  - apply String.eqb_neq in Hmint.
    destruct (ProviderFacts.exchange_cases client authorizationCode this)
      as [H | [(cd & H & Hid) | (cd & H & Hid)]].
    + now rewrite ProviderFacts.exchange_unknown.
    + now rewrite (ProviderFacts.exchange_other_client _ _ _ _ _ _ _ H Hid).
    + rewrite (ProviderFacts.exchange_issuing_client _ _ _ _ _ _ _ H Hid). simpl.
      now rewrite lookup_insert_ne.
  - reflexivity.
  - unfold verifyAccessToken, mbind, method_bind, get_this, throw, mret, method_ret.
    simpl. destruct (tokens this !! _) as [tokenData|]; [|reflexivity].
    now destruct (expired now tokenData || is_refresh tokenData).
  - reflexivity.
  - reflexivity.
Qed.

Lemma after_tokens_stay new_URL token call this :
  is_Some (tokens this !! token) ->
  is_Some (tokens (after new_URL call this) !! token).
Proof.
  intros Hstored. destruct (mints token call) eqn:Hmint.
  - destruct call; try discriminate. simpl in *.
    apply String.eqb_eq in Hmint. subst randomUUID.
    destruct (ProviderFacts.exchange_cases client authorizationCode this)
      as [H | [(cd & H & Hid) | (cd & H & Hid)]].
    + now rewrite ProviderFacts.exchange_unknown.
    + now rewrite (ProviderFacts.exchange_other_client _ _ _ _ _ _ _ H Hid).
    + rewrite (ProviderFacts.exchange_issuing_client _ _ _ _ _ _ _ H Hid). simpl.
      rewrite lookup_insert_eq. eauto.
  - now rewrite after_tokens_kept.
Qed.

Lemma run_tokens_kept new_URL token calls : forall this,
  forallb (fun call => negb (mints token call)) calls = true ->
  tokens (run new_URL calls this) !! token = tokens this !! token.
Proof.
  induction calls as [|call calls IH]; intros this Hcalls; simpl in *; [reflexivity|].
  apply andb_prop in Hcalls as [Hcall Hcalls]. apply negb_true_iff in Hcall.
  rewrite (IH _ Hcalls). now apply after_tokens_kept.
Qed.

Section Platform.

Variable new_URL : string -> option URL.t -> Completion URL.t.

(** X2.  [challengeForAuthorizationCode] does not look at the client that
    asks: once [authorize] has stored a code, it returns the code challenge
    of the request to every client, and leaves the provider as it is.  Once
    the code has been exchanged it throws [Invalid authorization code]. *)
Theorem X2_challenge_for_any_client code client params this asking :
  let issued := after new_URL (Authorize code client params) this in
  challengeForAuthorizationCode asking code issued
  = (Return (AuthorizationParams.codeChallenge params), issued)
  /\ forall randomUUID now presenting codeVerifier,
       OAuthClientInformationFull.client_id presenting
         = OAuthClientInformationFull.client_id client ->
       let exchanged :=
         snd (exchangeAuthorizationCode randomUUID now presenting code codeVerifier issued) in
       challengeForAuthorizationCode asking code exchanged
       = (Throw (Error "Invalid authorization code"), exchanged).
Proof.
  intros issued.
  assert (Hcode : codes issued !! code = Some (CodeData.mk params client)).
  { unfold issued. simpl. rewrite ProviderFacts.authorize_state. simpl.
    apply lookup_insert_eq. }
  split.
  - unfold challengeForAuthorizationCode, mbind, method_bind, get_this, mret, method_ret.
    simpl. now rewrite Hcode.
  - intros randomUUID now presenting codeVerifier Hid exchanged.
    assert (Hgone : codes exchanged !! code = None).
    { unfold exchanged.
      rewrite (ProviderFacts.exchange_issuing_client _ _ _ _ _ _ _ Hcode (eq_sym Hid)).
      simpl. apply lookup_delete_eq. }
    unfold challengeForAuthorizationCode, mbind, method_bind, get_this, throw.
    simpl. now rewrite Hgone.
Qed.

(** X3.  [authorize] stores the code before it parses the redirect URI: when
    [new URL(client.redirect_uris[0])] throws, [authorize] throws the same
    exception and sends no redirect, yet the code is stored, and the client
    can exchange it. *)
Theorem X3_authorize_stores_code_before_parsing randomUUID client params this e :
  new_URL (JS.to_string (OAuthClientInformationFull.redirect_uris client !! 0%nat)) None
    = Throw e ->
  let failed := authorize new_URL randomUUID client params this in
  fst failed = Throw e
  /\ codes (snd failed) !! randomUUID = Some (CodeData.mk params client)
  /\ forall token now codeVerifier,
       fst (exchangeAuthorizationCode token now client randomUUID codeVerifier (snd failed))
       = Return (OAuthTokens.mk token "Bearer" 3600
                   (JS.join " " (default [] (AuthorizationParams.scopes params)))).
Proof.
  intros Hparse failed.
  assert (Hcode : codes (snd failed) !! randomUUID = Some (CodeData.mk params client)).
  { unfold failed. rewrite ProviderFacts.authorize_state. simpl. apply lookup_insert_eq. }
  split; [|split; [exact Hcode|]].
  - unfold failed, authorize, mbind, method_bind, modify_this, lift. simpl.
    now rewrite Hparse.
  - intros token now codeVerifier.
    now rewrite (ProviderFacts.exchange_issuing_client _ _ _ _ _ _ _ Hcode eq_refl).
Qed.

(** X4.  The token that a returning [exchangeAuthorizationCode] minted at
    [now] is accepted by [verifyAccessToken] at every instant up to and
    including [now + 3600000], whatever calls that do not mint the same token
    again come in between.  The call returns the token, the client id of the
    exchanging client, the scopes of the token response, and the expiry in
    seconds, 3600 after the second of [now].  After that instant the call
    throws [Invalid or expired token]. *)
Theorem X4_minted_token_verifies_for_one_hour
    randomUUID now client authorizationCode codeVerifier this response this' between :
  exchangeAuthorizationCode randomUUID now client authorizationCode codeVerifier this
    = (Return response, this') ->
  forallb (fun call => negb (mints randomUUID call)) between = true ->
  let later := run new_URL between this' in
  exists scopes,
    OAuthTokens.scope response = JS.join " " scopes
    /\ (forall at_, (at_ <= now + 3600000)%Z ->
          verifyAccessToken at_ randomUUID later
          = (Return (AuthInfo.mk randomUUID (OAuthClientInformationFull.client_id client)
                       scopes (Some (now / 1000 + 3600)%Z) None), later))
    /\ (forall at_, (now + 3600000 < at_)%Z ->
          verifyAccessToken at_ randomUUID later
          = (Throw (Error "Invalid or expired token"), later)).
Proof.
  intros Hcall Hbetween later.
  destruct (ProviderFacts.exchange_cases client authorizationCode this)
    as [H | [(cd & H & Hid) | (cd & H & Hid)]].
  - rewrite ProviderFacts.exchange_unknown in Hcall by assumption. discriminate.
  - rewrite (ProviderFacts.exchange_other_client _ _ _ _ _ _ _ H Hid) in Hcall.
    discriminate.
  - rewrite (ProviderFacts.exchange_issuing_client _ _ _ _ _ _ _ H Hid) in Hcall.
    injection Hcall as <- <-.
    exists (default [] (AuthorizationParams.scopes (CodeData.params cd))).
    assert (Htoken : tokens later !! randomUUID
                     = Some (AuthInfo.mk randomUUID
                               (OAuthClientInformationFull.client_id client)
                               (default [] (AuthorizationParams.scopes (CodeData.params cd)))
                               (Some (now + 3600000)%Z) (Some "access"))).
    { unfold later. rewrite (run_tokens_kept _ _ _ _ Hbetween). simpl.
      apply lookup_insert_eq. }
    assert (Hseconds : ((now + 3600000) / 1000 = now / 1000 + 3600)%Z).
    { change 3600000%Z with (3600 * 1000)%Z. apply Z.div_add. lia. }
    split; [reflexivity|].
    split; intros at_ Hat;
      unfold verifyAccessToken, mbind, method_bind, get_this, throw, mret, method_ret;
      simpl; rewrite Htoken; unfold expired, is_refresh; simpl.
    + destruct (Z.ltb_spec (now + 3600000) at_); [lia|]. simpl.
      now rewrite Hseconds.
    + destruct (Z.ltb_spec (now + 3600000) at_); [reflexivity|lia].
Qed.

(** X5.  No call removes a token: a token that is in the token map stays in
    it through every sequence of calls, and keeps its record through the
    calls that do not mint the same token again. *)
Theorem X5_tokens_are_never_removed token calls this :
  is_Some (tokens this !! token) ->
  is_Some (tokens (run new_URL calls this) !! token)
  /\ (forallb (fun call => negb (mints token call)) calls = true ->
      tokens (run new_URL calls this) !! token = tokens this !! token).
Proof.
  intros Hstored. split; [|apply run_tokens_kept].
  revert this Hstored.
  induction calls as [|call calls IH]; intros this Hstored; simpl; [assumption|].
  apply IH. now apply after_tokens_stay.
Qed.

(** X6.  The methods of the provider never read or write its clients store:
    a call other than [getClient] and [registerClient] does the same to the
    code map and the token map whatever the clients store holds, and leaves
    the clients store as it is.  In particular [authorize] and
    [exchangeAuthorizationCode] give the same results for a client that was
    never registered. *)
Theorem X6_provider_never_consults_clients_store call this store :
  on_store call = false ->
  after new_URL call (set_clientsStore (fun _ => store) this)
    = set_clientsStore (fun _ => store) (after new_URL call this)
  /\ clientsStore (after new_URL call this) = clientsStore this
  /\ (forall randomUUID client params,
        fst (authorize new_URL randomUUID client params
               (set_clientsStore (fun _ => store) this))
        = fst (authorize new_URL randomUUID client params this))
  /\ (forall randomUUID now client authorizationCode codeVerifier,
        fst (exchangeAuthorizationCode randomUUID now client authorizationCode codeVerifier
               (set_clientsStore (fun _ => store) this))
        = fst (exchangeAuthorizationCode randomUUID now client authorizationCode
                 codeVerifier this)).
Proof.
  intros Hcall. repeat split.
  - destruct call; try discriminate; simpl.
    + now rewrite !ProviderFacts.authorize_state.
    + unfold challengeForAuthorizationCode, mbind, method_bind, get_this, throw, mret,
        method_ret. simpl. now destruct (codes this !! authorizationCode).
    + unfold exchangeAuthorizationCode, mbind, method_bind, get_this, modify_this, throw,
        mret, method_ret. simpl.
      destruct (codes this !! authorizationCode) as [cd|]; [|reflexivity].
      now destruct (negb _).
    + reflexivity.
    + unfold verifyAccessToken, mbind, method_bind, get_this, throw, mret, method_ret.
      simpl. destruct (tokens this !! token) as [tokenData|]; [|reflexivity].
      now destruct (expired now tokenData || is_refresh tokenData).
  - destruct call; try discriminate; simpl.
    + now rewrite ProviderFacts.authorize_state.
    + unfold challengeForAuthorizationCode, mbind, method_bind, get_this, throw, mret,
        method_ret. simpl. now destruct (codes this !! authorizationCode).
    + unfold exchangeAuthorizationCode, mbind, method_bind, get_this, modify_this, throw,
        mret, method_ret. simpl.
      destruct (codes this !! authorizationCode) as [cd|]; [|reflexivity].
      now destruct (negb _).
    + reflexivity.
    + unfold verifyAccessToken, mbind, method_bind, get_this, throw, mret, method_ret.
      simpl. destruct (tokens this !! token) as [tokenData|]; [|reflexivity].
      now destruct (expired now tokenData || is_refresh tokenData).
  - intros randomUUID client params.
    unfold authorize, mbind, method_bind, modify_this, lift, mret, method_ret. simpl.
    now destruct (new_URL _ None).
  - intros randomUUID now client authorizationCode codeVerifier.
    unfold exchangeAuthorizationCode, mbind, method_bind, get_this, modify_this, throw,
      mret, method_ret. simpl.
    destruct (codes this !! authorizationCode) as [cd|]; [|reflexivity].
    now destruct (negb _).
Qed.

(** X12.  [challengeForAuthorizationCode], [exchangeRefreshToken],
    [verifyAccessToken] and [getClient] never write: whether they return or
    throw, in every state, even one no history leads to, the provider after
    any sequence of such calls is the provider before. *)
Theorem X12_reading_methods_change_nothing calls this :
  forallb reads calls = true ->
  run new_URL calls this = this.
Proof.
  revert this. induction calls as [|call calls IH]; intros this Hcalls; [reflexivity|].
  simpl in Hcalls. apply andb_prop in Hcalls as [Hcall Hcalls].
  simpl. enough (after new_URL call this = this) as -> by now apply IH.
  destruct call; try discriminate; simpl.
  - unfold challengeForAuthorizationCode, mbind, method_bind, get_this, throw, mret,
      method_ret. simpl. now destruct (codes this !! authorizationCode).
  - reflexivity.
  - unfold verifyAccessToken, mbind, method_bind, get_this, throw, mret, method_ret.
    simpl. destruct (tokens this !! token) as [tokenData|]; [|reflexivity].
    now destruct (expired now tokenData || is_refresh tokenData).
  - now destruct this.
Qed.

(** X13.  Nothing is accepted that the provider did not issue.  After any
    history of a new provider in which no exchange minted [token],
    [verifyAccessToken(token)] throws; after any history in which no
    [authorize] issued [code], [exchangeAuthorizationCode] of [code] throws,
    for every client. *)
Theorem X13_only_issued_values_are_accepted calls value :
  (forallb (fun call => negb (mints value call)) calls = true ->
   forall now,
     verifyAccessToken now value (run new_URL calls new)
     = (Throw (Error "Invalid or expired token"), run new_URL calls new))
  /\ (forallb (fun call => negb (issues value call)) calls = true ->
      forall randomUUID now client codeVerifier,
        exchangeAuthorizationCode randomUUID now client value codeVerifier
          (run new_URL calls new)
        = (Throw (Error "Invalid authorization code"), run new_URL calls new)).
Proof.
  split.
  - intros Hcalls now.
    unfold verifyAccessToken, mbind, method_bind, get_this, throw. simpl.
    now rewrite (run_tokens_kept _ _ _ _ Hcalls).
  - intros Hcalls randomUUID now client codeVerifier.
    apply ProviderFacts.exchange_unknown.
    now apply ProviderFacts.run_codes_absent.
Qed.

End Platform.

(** X7.  An [exchangeAuthorizationCode] that throws has changed nothing: the
    provider is as it was before the call.  It throws in two cases only: the
    code is not stored ([Invalid authorization code]), or it was issued to
    another client id. *)
Theorem X7_failed_exchange_changes_nothing
    randomUUID now client authorizationCode codeVerifier this e :
  fst (exchangeAuthorizationCode randomUUID now client authorizationCode codeVerifier this)
    = Throw e ->
  snd (exchangeAuthorizationCode randomUUID now client authorizationCode codeVerifier this)
    = this
  /\ ((codes this !! authorizationCode = None
       /\ e = Error "Invalid authorization code")
      \/ (exists codeData,
            codes this !! authorizationCode = Some codeData
            /\ OAuthClientInformationFull.client_id (CodeData.client codeData)
               <> OAuthClientInformationFull.client_id client
            /\ e = Error (not_issued_to
                            (OAuthClientInformationFull.client_id (CodeData.client codeData))
                            (OAuthClientInformationFull.client_id client)))).
Proof.
  destruct (ProviderFacts.exchange_cases client authorizationCode this)
    as [H | [(cd & H & Hid) | (cd & H & Hid)]].
  - rewrite ProviderFacts.exchange_unknown by assumption. simpl.
    intros [= <-]. auto.
  - rewrite (ProviderFacts.exchange_other_client _ _ _ _ _ _ _ H Hid). simpl.
    intros [= <-]. split; [reflexivity|]. right. eauto.
  - rewrite (ProviderFacts.exchange_issuing_client _ _ _ _ _ _ _ H Hid). simpl.
    discriminate.
Qed.

End StoreFacts.

(** ** Further properties of the authorization router *)

Module RouterCoverage.
Import Router Histories.

Section Platform.

Variable new_URL : string -> option URL.t -> Completion URL.t.

Lemma protected_router_after_check options :
  checkIssuerUrl (ProtectedResourceRouterOptions.issuerUrl options) = Return tt ->
  mcpProtectedResourceRouter options
  = Return [use "/.well-known/oauth-protected-resource"
              (metadataHandler (ProtectedResource
                 (OAuthProtectedResourceMetadata.mk
                    (URL.href (ProtectedResourceRouterOptions.serverUrl options))
                    [URL.href (ProtectedResourceRouterOptions.issuerUrl options)]
                    (ProtectedResourceRouterOptions.scopesSupported options)
                    (ProtectedResourceRouterOptions.resourceName options)
                    (URL.href <$> ProtectedResourceRouterOptions.serviceDocumentationUrl
                                    options))))].
Proof.
  intros Hcheck. unfold mcpProtectedResourceRouter, mbind, completion_bind, JS.bind.
  now rewrite Hcheck.
Qed.

(** The router [mcpAuthRouter] returns, when it returns. *)
Lemma mcpAuthRouter_returns options router :
  mcpAuthRouter new_URL options = Return router ->
  let issuer := AuthRouterOptions.issuerUrl options in
  let provider := AuthRouterOptions.provider options in
  exists metadata,
    checkIssuerUrl issuer = Return tt
    /\ authorization_server_metadata new_URL options = Return metadata
    /\ router
       = [use "/authorize" (authorizationHandler provider);
          use "/token" (tokenHandler provider);
          use "/.well-known/oauth-authorization-server"
            (metadataHandler (AuthorizationServer metadata));
          use "/"
            (Router.router
               [use "/.well-known/oauth-protected-resource"
                  (metadataHandler (ProtectedResource
                     (OAuthProtectedResourceMetadata.mk
                        (URL.href
                           (default issuer
                              (ProtectedResourceOverrides.serverUrl
                                 <$> AuthRouterOptions.protectedResourceOptions options)))
                        [URL.href issuer]
                        (AuthRouterOptions.scopesSupported options)
                        (AuthRouterOptions.protectedResourceOptions options
                           ≫= ProtectedResourceOverrides.resourceName)
                        (URL.href <$> AuthRouterOptions.serviceDocumentationUrl options))))])]
         ++ match registration_endpoint provider with
            | Some endpoint =>
                [use endpoint
                   (clientRegistrationHandler (OAuthServerProvider.clientsStore provider))]
            | None => []
            end
         ++ match revocation_endpoint provider with
            | Some endpoint => [use endpoint (revocationHandler provider)]
            | None => []
            end.
Proof.
  unfold mcpAuthRouter. cbv zeta.
  unfold mbind, completion_bind, JS.bind at 1.
  destruct (checkIssuerUrl _) as [[]|] eqn:Hcheck; [|discriminate].
  unfold JS.bind at 1.
  destruct (authorization_server_metadata new_URL options) as [metadata|]; [|discriminate].
  rewrite protected_router_after_check by exact Hcheck.
  simpl. intros [= <-]. exists metadata. auto.
Qed.

(** X8.  The optional endpoints that the metadata advertises are the ones
    the router mounts: the router has a layer at [/register] exactly when
    the metadata has a [registration_endpoint], and a layer at [/revoke]
    exactly when it has a [revocation_endpoint].  The layers are, in order,
    [/authorize], [/token], the metadata document, the protected-resource
    router, then [/register] and [/revoke] when the provider has them. *)
Theorem X8_advertised_endpoints_are_mounted options router :
  mcpAuthRouter new_URL options = Return router ->
  exists metadata,
    In (use "/.well-known/oauth-authorization-server"
          (metadataHandler (AuthorizationServer metadata))) router
    /\ (is_Some (OAuthMetadata.registration_endpoint metadata)
        <-> In "/register" (mounted router))
    /\ (is_Some (OAuthMetadata.revocation_endpoint metadata)
        <-> In "/revoke" (mounted router))
    /\ mounted router
       = ["/authorize"; "/token"; "/.well-known/oauth-authorization-server"; "/"]
         ++ (if OAuthRegisteredClientsStore.registerClient
                  (OAuthServerProvider.clientsStore (AuthRouterOptions.provider options))
             then ["/register"] else [])
         ++ (if OAuthServerProvider.revokeToken (AuthRouterOptions.provider options)
             then ["/revoke"] else []).
Proof.
  intros Hrouter.
  destruct (mcpAuthRouter_returns _ _ Hrouter) as (metadata & _ & Hmetadata & ->).
  pose proof (RouterFacts.metadata_optional_fields _ _ _ Hmetadata) as [Hrev Hreg].
  exists metadata. cbv zeta in *.
  unfold revocation_endpoint, registration_endpoint in *.
  destruct (OAuthServerProvider.revokeToken _),
    (OAuthRegisteredClientsStore.registerClient _); simpl in *.
  - destruct Hrev as [(url & _ & ->) _], Hreg as (url' & _ & ->).
    repeat split; eauto 10.
  - destruct Hrev as [(url & _ & ->) _]. rewrite Hreg.
    repeat split; eauto 10.
    + intros [? H]. discriminate.
    + intros H. repeat (destruct H as [H|H]; try discriminate). contradiction.
  - destruct Hrev as [-> _], Hreg as (url' & _ & ->).
    repeat split; eauto 10.
    + intros [? H]. discriminate.
    + intros H. repeat (destruct H as [H|H]; try discriminate). contradiction.
  - destruct Hrev as [-> _]. rewrite Hreg.
    repeat split; eauto 10.
    + intros [? H]. discriminate.
    + intros H. repeat (destruct H as [H|H]; try discriminate). contradiction.
    + intros [? H]. discriminate.
    + intros H. repeat (destruct H as [H|H]; try discriminate). contradiction.
Qed.




(** X10.  The protected-resource document that [mcpAuthRouter] serves names
    one authorization server, the issuer that the authorization-server
    document declares.  Its resource is the issuer too, unless
    [protectedResourceOptions] gives another server URL.  Both documents
    carry the same supported scopes and the same documentation URL. *)
Theorem X10_protected_resource_names_the_issuer options router :
  mcpAuthRouter new_URL options = Return router ->
  exists metadata resource,
    In (use "/.well-known/oauth-authorization-server"
          (metadataHandler (AuthorizationServer metadata))) router
    /\ In (use "/"
             (Router.router
                [use "/.well-known/oauth-protected-resource"
                   (metadataHandler (ProtectedResource resource))])) router
    /\ OAuthProtectedResourceMetadata.authorization_servers resource
       = [OAuthMetadata.issuer metadata]
    /\ OAuthMetadata.issuer metadata = URL.href (AuthRouterOptions.issuerUrl options)
    /\ OAuthProtectedResourceMetadata.resource resource
       = match AuthRouterOptions.protectedResourceOptions options with
         | Some overrides => URL.href (ProtectedResourceOverrides.serverUrl overrides)
         | None => URL.href (AuthRouterOptions.issuerUrl options)
         end
    /\ OAuthProtectedResourceMetadata.scopes_supported resource
       = OAuthMetadata.scopes_supported metadata
    /\ OAuthProtectedResourceMetadata.resource_documentation resource
       = OAuthMetadata.service_documentation metadata.
Proof.
  intros Hrouter.
  destruct (mcpAuthRouter_returns _ _ Hrouter) as (metadata & _ & Hmetadata & ->).
  assert (Hfields : OAuthMetadata.issuer metadata
                    = URL.href (AuthRouterOptions.issuerUrl options)
                    /\ OAuthMetadata.scopes_supported metadata
                       = AuthRouterOptions.scopesSupported options
                    /\ OAuthMetadata.service_documentation metadata
                       = URL.href <$> AuthRouterOptions.serviceDocumentationUrl options).
  { revert Hmetadata. unfold authorization_server_metadata. cbv zeta.
    unfold mbind, completion_bind.
    destruct (new_URL "/authorize" _); simpl; [|discriminate].
    destruct (new_URL "/token" _); simpl; [|discriminate].
    destruct (optional_href _ (revocation_endpoint _) _); simpl; [|discriminate].
    destruct (optional_href _ (registration_endpoint _) _); simpl; [|discriminate].
    intros [= <-]. auto. }
  destruct Hfields as (Hissuer & Hscopes & Hdoc).
  eexists metadata, _. split; [simpl; auto|]. split; [simpl; auto 10|].
  simpl. rewrite Hissuer, Hscopes, Hdoc.
  repeat split. now destruct (AuthRouterOptions.protectedResourceOptions options).
Qed.

(** X11.  [mcpProtectedResourceRouter] validates the issuer as
    [mcpAuthRouter] does: it throws exactly when the issuer check throws, and
    otherwise returns a router with one layer, the document at
    [/.well-known/oauth-protected-resource].  That document always has
    [resource] and [authorization_servers], and has [scopes_supported],
    [resource_name] and [resource_documentation] exactly when the option was
    given. *)
Theorem X11_protected_resource_router options :
  (forall e, mcpProtectedResourceRouter options = Throw e
             <-> checkIssuerUrl (ProtectedResourceRouterOptions.issuerUrl options) = Throw e)
  /\ (checkIssuerUrl (ProtectedResourceRouterOptions.issuerUrl options) = Return tt ->
      exists resource,
        mcpProtectedResourceRouter options
        = Return [use "/.well-known/oauth-protected-resource"
                    (metadataHandler (ProtectedResource resource))]
        /\ let document := metadata_document (ProtectedResource resource) in
           JSON.get "resource" document
           = Some (JSON.String (URL.href (ProtectedResourceRouterOptions.serverUrl options)))
           /\ JSON.get "authorization_servers" document
              = Some (JSON.Strings
                        [URL.href (ProtectedResourceRouterOptions.issuerUrl options)])
           /\ JSON.has_property "scopes_supported" document
              = bool_decide (is_Some (ProtectedResourceRouterOptions.scopesSupported options))
           /\ JSON.has_property "resource_name" document
              = bool_decide (is_Some (ProtectedResourceRouterOptions.resourceName options))
           /\ JSON.has_property "resource_documentation" document
              = bool_decide
                  (is_Some (ProtectedResourceRouterOptions.serviceDocumentationUrl options))).
Proof.
  split.
  - intros e. unfold mcpProtectedResourceRouter, mbind, completion_bind, JS.bind.
    destruct (checkIssuerUrl _) as [[]|e']; split; intros H; try discriminate;
      now injection H as ->.
  - intros Hcheck. rewrite (protected_router_after_check _ Hcheck).
    eexists. split; [reflexivity|].
    destruct options as [issuer server doc scopes name]. simpl.
    destruct doc, scopes, name; repeat split; reflexivity.
Qed.

End Platform.
End RouterCoverage.

(** ** The further properties on the scenario *)

Module CoverageScenario.
Import InMemoryAuthProvider Histories Scenario.

Lemma X2_scenario :
  challengeForAuthorizationCode c2 X (after BasicURL.new_URL (Authorize X c1 params) new)
  = (Return (AuthorizationParams.codeChallenge params),
     after BasicURL.new_URL (Authorize X c1 params) new)
  /\ challengeForAuthorizationCode c2 X
       (snd (exchangeAuthorizationCode T now c1 X None
               (after BasicURL.new_URL (Authorize X c1 params) new)))
     = (Throw (Error "Invalid authorization code"),
        snd (exchangeAuthorizationCode T now c1 X None
               (after BasicURL.new_URL (Authorize X c1 params) new))).
Proof.
  destruct (StoreFacts.X2_challenge_for_any_client BasicURL.new_URL X c1 params new c2)
    as [Hstored Hgone].
  split; [exact Hstored|].
  exact (Hgone T now c1 None eq_refl).
Defined.

Lemma X3_scenario :
  let client := OAuthClientInformationFull.mk "c0" None [] in
  BasicURL.new_URL "undefined" None = Throw (TypeError "Invalid URL")
  /\ fst (authorize BasicURL.new_URL X client params new) = Throw (TypeError "Invalid URL")
  /\ codes (snd (authorize BasicURL.new_URL X client params new)) !! X
     = Some (CodeData.mk params client).
Proof.
  intros client.
  destruct (StoreFacts.X3_authorize_stores_code_before_parsing BasicURL.new_URL
              X client params new (TypeError "Invalid URL") eq_refl)
    as (Hthrows & Hstored & _).
  split; [reflexivity|]. split; [exact Hthrows | exact Hstored].
Defined.

Lemma X4_scenario :
  let between := [Authorize T' c2 params; VerifyAccessToken now T] in
  exchangeAuthorizationCode T now c1 X (Some "verifier1") authorized
  = (Return (OAuthTokens.mk T "Bearer" 3600 "read write"), exchanged)
  /\ exists scopes,
       verifyAccessToken (now + 3600000) T (run BasicURL.new_URL between exchanged)
       = (Return (AuthInfo.mk T "c1" scopes (Some (now / 1000 + 3600)%Z) None),
          run BasicURL.new_URL between exchanged).
Proof.
  intros between.
  assert (Hcall : exchangeAuthorizationCode T now c1 X (Some "verifier1") authorized
                  = (Return (OAuthTokens.mk T "Bearer" 3600 "read write"), exchanged))
    by (vm_compute; reflexivity).
  split; [exact Hcall|].
  destruct (StoreFacts.X4_minted_token_verifies_for_one_hour BasicURL.new_URL
              T now c1 X (Some "verifier1") authorized _ _ between Hcall eq_refl)
    as (scopes & _ & Haccepted & _).
  exists scopes. apply Haccepted. apply Z.le_refl.
Defined.

Lemma X5_scenario :
  let calls := [VerifyAccessToken (now + 7200000) T; ExchangeRefreshToken c1 T None;
                Authorize T c2 params] in
  is_Some (tokens exchanged !! T)
  /\ is_Some (tokens (run BasicURL.new_URL calls exchanged) !! T).
Proof.
  intros calls.
  assert (Hstored : is_Some (tokens exchanged !! T))
    by (eexists; vm_compute; reflexivity).
  split; [exact Hstored|].
  exact (proj1 (StoreFacts.X5_tokens_are_never_removed BasicURL.new_URL T calls exchanged
                  Hstored)).
Defined.

Lemma X6_scenario :
  let store := InMemoryClientsStore.mk {[ "c2" := c2 ]} in
  on_store (Authorize X c1 params) = false
  /\ after BasicURL.new_URL (Authorize X c1 params) (set_clientsStore (fun _ => store) new)
     = set_clientsStore (fun _ => store) (after BasicURL.new_URL (Authorize X c1 params) new).
Proof.
  intros store. split; [reflexivity|].
  exact (proj1 (StoreFacts.X6_provider_never_consults_clients_store BasicURL.new_URL
                  (Authorize X c1 params) new store eq_refl)).
Defined.

Lemma X7_scenario :
  fst (exchangeAuthorizationCode T now c2 X (Some "verifier1") authorized)
  = Throw (Error "Authorization code was not issued to this client, c1 != c2")
  /\ snd (exchangeAuthorizationCode T now c2 X (Some "verifier1") authorized) = authorized.
Proof.
  assert (Hthrows :
            fst (exchangeAuthorizationCode T now c2 X (Some "verifier1") authorized)
            = Throw (Error "Authorization code was not issued to this client, c1 != c2"))
    by (vm_compute; reflexivity).
  split; [exact Hthrows|].
  exact (proj1 (StoreFacts.X7_failed_exchange_changes_nothing T now c2 X (Some "verifier1")
                  authorized _ Hthrows)).
Defined.

Lemma X12_scenario :
  let calls := [VerifyAccessToken now T; ChallengeForAuthorizationCode c2 X;
                ExchangeRefreshToken c1 T None; GetClient "c1"] in
  forallb reads calls = true
  /\ run BasicURL.new_URL calls exchanged = exchanged.
Proof.
  intros calls. split; [reflexivity|].
  exact (StoreFacts.X12_reading_methods_change_nothing BasicURL.new_URL calls exchanged
           eq_refl).
Defined.

Lemma X13_scenario :
  let calls := [Authorize X c1 params;
                ExchangeAuthorizationCode T now c1 X (Some "verifier1")] in
  verifyAccessToken now T' (run BasicURL.new_URL calls new)
  = (Throw (Error "Invalid or expired token"), run BasicURL.new_URL calls new)
  /\ exchangeAuthorizationCode T' now c1 T (Some "verifier1") (run BasicURL.new_URL calls new)
     = (Throw (Error "Invalid authorization code"), run BasicURL.new_URL calls new).
Proof.
  intros calls.
  destruct (StoreFacts.X13_only_issued_values_are_accepted BasicURL.new_URL calls T')
    as [Htoken _].
  destruct (StoreFacts.X13_only_issued_values_are_accepted BasicURL.new_URL calls T)
    as [_ Hcode].
  split; [exact (Htoken eq_refl now) | exact (Hcode eq_refl T' now c1 (Some "verifier1"))].
Defined.

Lemma X8_scenario :
  Router.mcpAuthRouter BasicURL.new_URL (router_options revoking_provider issuer)
  = Return (router_of revoking_provider)
  /\ mounted (router_of revoking_provider)
     = ["/authorize"; "/token"; "/.well-known/oauth-authorization-server"; "/";
        "/register"; "/revoke"].
Proof.
  assert (Hrouter : Router.mcpAuthRouter BasicURL.new_URL
                      (router_options revoking_provider issuer)
                    = Return (router_of revoking_provider)) by reflexivity.
  split; [exact Hrouter|].
  destruct (RouterCoverage.X8_advertised_endpoints_are_mounted BasicURL.new_URL _ _ Hrouter)
    as (metadata & _ & _ & _ & Hmounted).
  exact Hmounted.
Defined.


Lemma X10_scenario :
  Router.mcpAuthRouter BasicURL.new_URL (router_options OAuthServerProvider.inMemory issuer)
  = Return (router_of OAuthServerProvider.inMemory)
  /\ exists metadata resource,
       In (Router.use "/"
             (Router.router
                [Router.use "/.well-known/oauth-protected-resource"
                   (Router.metadataHandler (Router.ProtectedResource resource))]))
          (router_of OAuthServerProvider.inMemory)
       /\ OAuthProtectedResourceMetadata.authorization_servers resource
          = [OAuthMetadata.issuer metadata]
       /\ OAuthMetadata.issuer metadata = "https://auth.example.com/".
Proof.
  assert (Hrouter : Router.mcpAuthRouter BasicURL.new_URL
                      (router_options OAuthServerProvider.inMemory issuer)
                    = Return (router_of OAuthServerProvider.inMemory)) by reflexivity.
  split; [exact Hrouter|].
  destruct (RouterCoverage.X10_protected_resource_names_the_issuer BasicURL.new_URL _ _
              Hrouter)
    as (metadata & resource & _ & Hin & Hservers & Hissuer & _).
  exists metadata, resource. split; [exact Hin|]. split; [exact Hservers | exact Hissuer].
Defined.

Lemma X11_scenario :
  let options :=
    Router.ProtectedResourceRouterOptions.mk issuer issuer None (Some ["read"]) None in
  Router.checkIssuerUrl issuer = Return tt
  /\ exists resource,
       Router.mcpProtectedResourceRouter options
       = Return [Router.use "/.well-known/oauth-protected-resource"
                   (Router.metadataHandler (Router.ProtectedResource resource))]
       /\ JSON.has_property "scopes_supported"
            (Router.metadata_document (Router.ProtectedResource resource)) = true
       /\ JSON.has_property "resource_name"
            (Router.metadata_document (Router.ProtectedResource resource)) = false.
Proof.
  intros options. split; [reflexivity|].
  destruct (proj2 (RouterCoverage.X11_protected_resource_router options) eq_refl)
    as (resource & Hrouter & _ & _ & Hscopes & Hname & _).
  exists resource. split; [exact Hrouter|]. split; [exact Hscopes | exact Hname].
Defined.

End CoverageScenario.
